(** * validate_bot.py: the pre-flight validator of the bot project

    A shallow embedding of [validate_bot.py] and the properties of its five
    checks and of [main].

    The script only talks to its environment: it tests paths for existence,
    reads one text file, creates one directory, imports three libraries and
    prints.  The embedding therefore makes the environment explicit:

    - a [world] holds the working directory as a tree of files and
      directories, whether that directory can be written, and the libraries
      the interpreter can find;
    - a Python function with effects is a function from the world to a
      [result] (a returned value or a raised exception), the world it leaves
      and the list of [event]s (system operations and printed lines) it
      performed, in order.

    Scope of the environment model: no symbolic links and no permission bits
    on single entries, so that [exists] answers for every path and a regular
    file can be read; one flag says whether the working directory accepts a
    new entry; text files hold decodable text; stdout prints every line it
    is given. The table of libraries stands for the outcome of the whole
    search of the interpreter, which starts in the directory of the script:
    a file of the working directory that shadows a library shows in the
    table, not in the tree.

    The properties stated over [check_env_file], [main] and the other
    definitions of the first part hold within that scope. The module
    [Faults] lifts it: there the environment may refuse any operation of
    the script with an exception, and the last part states what the checks
    do whatever is refused, or under the provisos it names. *)

From Stdlib Require Import Ascii String List Bool ZArith Lia.
From stdpp Require Import gmap strings list fin_maps.

Local Open Scope string_scope.
Local Open Scope list_scope.

(** ** The environment *)

(** A [pathlib.Path] relative to the working directory: its components. *)
Definition path := list string.

(** [Path('name')] for a name without separator, and [p / name]. *)
Definition Path (name : string) : path := [name].
Definition path_div (p : path) (name : string) : path := p ++ [name].

#[warnings="-register-all"]
Inductive node :=
| File (content : string)
| Dir (entries : gmap string node).

(** The exceptions the operations of the script can raise.
    [ModuleNotFoundError] is a subclass of [ImportError]. *)
Inductive exception :=
| ImportError
| ModuleNotFoundError
| AttributeError
| FileNotFoundError
| FileExistsError
| IsADirectoryError
| NotADirectoryError
| PermissionError
| OtherException (name : string).

(** [except ImportError] catches the class and its subclass. *)
Definition is_ImportError (e : exception) : bool :=
  match e with
  | ImportError | ModuleNotFoundError => true
  | _ => false
  end.

(** What [import name] finds: a module that loads (with its [__version__]
    attribute when it has one), or one whose import raises. A name the
    interpreter does not find at all is absent from the table. *)
Inductive module :=
| Module (version : option string)
| Broken (e : exception).

Record world := World {
  cwd : gmap string node;
  writable : bool;
  site_packages : gmap string module
}.

(** ** Effects *)

Inductive event :=
| Ev_print (line : string)
| Ev_exists (p : path)
| Ev_open (p : path)
| Ev_read (p : path)
| Ev_mkdir (p : path)
| Ev_import (name : string)
| Ev_getattr (name attr : string).

Inductive result (A : Type) :=
| Return (a : A)
| Raise (e : exception).
Arguments Return {A} a.
Arguments Raise {A} e.

Definition M (A : Type) : Type := world -> result A * world * list event.

Definition ret {A} (a : A) : M A := fun w => (Return a, w, []).

Definition bind {A B} (m : M A) (k : A -> M B) : M B :=
  fun w =>
    match m w with
    | (Return a, w1, evs1) =>
        let '(r, w2, evs2) := k a w1 in (r, w2, evs1 ++ evs2)
    | (Raise e, w1, evs1) => (Raise e, w1, evs1)
    end.

Declare Scope py_scope.
Delimit Scope py_scope with py.
Notation "x <- m ;; k" := (bind m (fun x => k))
  (at level 100, m at next level, right associativity) : py_scope.
Notation "m ;; k" := (bind m (fun _ => k))
  (at level 100, right associativity) : py_scope.
Local Open Scope py_scope.

Definition emit (ev : event) : M unit := fun w => (Return tt, w, [ev]).

(** The three components of a run. *)
Definition result_of {A} (r : result A * world * list event) : result A := fst (fst r).
Definition world_of {A} (r : result A * world * list event) : world := snd (fst r).
Definition events_of {A} (r : result A * world * list event) : list event := snd r.

(** [try: body except ImportError: handler] *)
Definition try_except_ImportError {A} (body handler : M A) : M A :=
  fun w =>
    match body w with
    | (Return a, w1, evs1) => (Return a, w1, evs1)
    | (Raise e, w1, evs1) =>
        if is_ImportError e
        then let '(r, w2, evs2) := handler w1 in (r, w2, evs1 ++ evs2)
        else (Raise e, w1, evs1)
    end.

(** A block of statements either executes [return b] ([Some b]) or falls
    through to the statements after it ([None]). *)
Definition or_continue {A} (block : M (option A)) (rest : M A) : M A :=
  r <- block ;;
  match r with
  | Some a => ret a
  | None => rest
  end.
Notation "block ;;; rest" := (or_continue block rest)
  (at level 100, right associativity) : py_scope.

(** [for x in xs: acc = body(acc, x)] *)
Fixpoint for_each {A B} (xs : list A) (acc : B) (body : B -> A -> M B) : M B :=
  match xs with
  | [] => ret acc
  | x :: xs' => acc' <- body acc x ;; for_each xs' acc' body
  end.

(** ** Operations on the environment *)

Definition print (line : string) : M unit := emit (Ev_print line).

(** Following a path from a node; a component below a regular file does not
    resolve. *)
Fixpoint resolve (n : node) (p : path) {struct p} : option node :=
  match p with
  | [] => Some n
  | c :: p' =>
      match n with
      | File _ => None
      | Dir es =>
          match es !! c with
          | Some n' => resolve n' p'
          | None => None
          end
      end
  end.

Definition lookup_path (w : world) (p : path) : option node :=
  resolve (Dir (cwd w)) p.

Definition path_exists (w : world) (p : path) : bool :=
  match lookup_path w p with Some _ => true | None => false end.

(** [p.exists()] *)
Definition exists_ (p : path) : M bool :=
  fun w => (Return (path_exists w p), w, [Ev_exists p]).

(** [with open(p, 'r') as f: content = f.read()] *)
Definition open_read (p : path) : M string :=
  fun w =>
    match lookup_path w p with
    | Some (File content) => (Return content, w, [Ev_open p; Ev_read p])
    | Some (Dir _) => (Raise IsADirectoryError, w, [Ev_open p])
    | None => (Raise FileNotFoundError, w, [Ev_open p])
    end.

(** The entries of a directory after [mkdir] of a path below it
    (no [parents], no [exist_ok]). *)
Fixpoint mkdir_in (es : gmap string node) (p : path) {struct p}
  : exception + gmap string node :=
  match p with
  | [] => inl FileExistsError
  | c :: p' =>
      match p' with
      | [] =>
          match es !! c with
          | Some _ => inl FileExistsError
          | None => inr (<[c := Dir ∅]> es)
          end
      | _ :: _ =>
          match es !! c with
          | None => inl FileNotFoundError
          | Some (File _) => inl NotADirectoryError
          | Some (Dir es') =>
              match mkdir_in es' p' with
              | inl e => inl e
              | inr es'' => inr (<[c := Dir es'']> es)
              end
          end
      end
  end.

Definition set_cwd (es : gmap string node) (w : world) : world :=
  {| cwd := es; writable := writable w; site_packages := site_packages w |}.

(** [p.mkdir()] *)
Definition mkdir (p : path) : M unit :=
  fun w =>
    match mkdir_in (cwd w) p with
    | inl e => (Raise e, w, [Ev_mkdir p])
    | inr es =>
        if writable w
        then (Return tt, set_cwd es w, [Ev_mkdir p])
        else (Raise PermissionError, w, [Ev_mkdir p])
    end.

(** What [import name] gives in a world. The script reads one attribute of
    one module only, so a loaded module is given as its [__version__], when
    it has one. *)
Definition import_result (w : world) (name : string) : result (option string) :=
  match site_packages w !! name with
  | None => Raise ModuleNotFoundError
  | Some (Broken e) => Raise e
  | Some (Module version) => Return version
  end.

(** [import name] *)
Definition import_ (name : string) : M (option string) :=
  fun w => (import_result w name, w, [Ev_import name]).

(** [name.__version__], on what the import gave. *)
Definition getattr_version (name : string) (version : option string) : M string :=
  fun w =>
    match version with
    | Some v => (Return v, w, [Ev_getattr name "__version__"])
    | None => (Raise AttributeError, w, [Ev_getattr name "__version__"])
    end.

(** ** Strings *)

Definition nl : string := String "010"%char EmptyString.

(** [s * n] *)
Fixpoint str_mul (s : string) (n : nat) : string :=
  match n with
  | O => EmptyString
  | S n' => s +:+ str_mul s n'
  end.

(** [sep.join(ls)] *)
Definition join (sep : string) (ls : list string) : string := String.concat sep ls.

(** [sub in s] *)
Fixpoint contains (sub s : string) : bool :=
  String.prefix sub s ||
  match s with
  | EmptyString => false
  | String _ s' => contains sub s'
  end.

(** The relation [contains] decides. *)
Definition is_substring (sub s : string) : Prop :=
  exists pre post, s = pre +:+ sub +:+ post.

(** ** The checks *)

Definition required_vars : list string := ["DISCORD_TOKEN"; "OWNER_ID"; "PREFIX"].

(** The loop of [check_env_file] that collects the missing variables. *)
Definition collect_missing (vars : list string) (content : string) : list string :=
  fold_left
    (fun missing var =>
       if negb (contains var content) then missing ++ [var] else missing)
    vars [].

Definition check_env_file : M bool :=
  print (nl +:+ "📁 Checking .env file...") ;;
  let env_path := Path ".env" in
  found <- exists_ env_path ;;
  if negb found then
    print "   ❌ .env file not found!" ;;
    print "   📝 Create .env with:" ;;
    print "      DISCORD_TOKEN=your_token_here" ;;
    print "      OWNER_ID=your_discord_id" ;;
    print "      PREFIX=!" ;;
    ret false
  else
    content <- open_read env_path ;;
    let missing := collect_missing required_vars content in
    match missing with
    | _ :: _ =>
        print ("   ❌ Missing variables: " +:+ join ", " missing) ;;
        ret false
    | [] =>
        print "   ✅ .env file is properly configured" ;;
        ret true
    end.

Definition required_files : list string :=
  ["bot.py"; "data_manager.py"; "requirements.txt"].

Definition check_required_files : M bool :=
  print (nl +:+ "📂 Checking required files...") ;;
  for_each required_files true (fun all_exist file =>
    found <- exists_ (Path file) ;;
    if negb found then
      print ("   ❌ Missing: " +:+ file) ;;
      ret false
    else
      print ("   ✅ Found: " +:+ file) ;;
      ret all_exist).

Definition required_commands : list string :=
  ["economy.py"; "teams.py"; "marketplace.py"; "moderation.py";
   "server_build.py"; "help_admin.py"].

Definition check_commands_folder : M bool :=
  print (nl +:+ "📦 Checking commands folder...") ;;
  let commands_path := Path "commands" in
  found <- exists_ commands_path ;;
  if negb found then
    print "   ❌ commands/ folder not found!" ;;
    ret false
  else
    for_each required_commands true (fun all_exist cmd_file =>
      let cmd_path := path_div commands_path cmd_file in
      found <- exists_ cmd_path ;;
      if negb found then
        print ("   ❌ Missing: commands/" +:+ cmd_file) ;;
        ret false
      else
        print ("   ✅ Found: commands/" +:+ cmd_file) ;;
        ret all_exist).

Definition check_data_folder : M bool :=
  print (nl +:+ "💾 Checking data folder...") ;;
  let data_path := Path "data" in
  found <- exists_ data_path ;;
  (if negb found then
     print "   ⚠️  data/ folder not found, creating..." ;;
     mkdir data_path ;;
     print "   ✅ Created data/ folder"
   else
     print "   ✅ data/ folder exists") ;;
  ret true.

Definition check_dependencies : M bool :=
  print (nl +:+ "📚 Checking Python dependencies...") ;;
  try_except_ImportError
    (discord <- import_ "discord" ;;
     version <- getattr_version "discord" discord ;;
     print ("   ✅ discord.py (" +:+ version +:+ ")") ;;
     ret None)
    (print "   ❌ discord.py not installed" ;;
     ret (Some false)) ;;;
  try_except_ImportError
    (import_ "dotenv" ;;
     print "   ✅ python-dotenv installed" ;;
     ret None)
    (print "   ❌ python-dotenv not installed" ;;
     ret (Some false)) ;;;
  try_except_ImportError
    (import_ "aiofiles" ;;
     print "   ✅ aiofiles installed" ;;
     ret None)
    (print "   ❌ aiofiles not installed" ;;
     ret (Some false)) ;;;
  ret true.

(** ** main *)

Definition checks : list (string * M bool) :=
  [("Environment File", check_env_file);
   ("Required Files", check_required_files);
   ("Commands Modules", check_commands_folder);
   ("Data Folder", check_data_folder);
   ("Dependencies", check_dependencies)].

(** The first loop of [main]: call each check, append its result. *)
Definition run_checks (cs : list (string * M bool)) : M (list (string * bool)) :=
  for_each cs [] (fun results c =>
    result <- snd c ;;
    ret (results ++ [(fst c, result)])).

(** The second loop of [main]: one status line per result. *)
Definition summarize (results : list (string * bool)) : M bool :=
  for_each results true (fun all_passed r =>
    let status := if snd r then "✅ PASS" else "❌ FAIL" in
    print (status +:+ " - " +:+ fst r) ;;
    ret (if negb (snd r) then false else all_passed)).

(** The body of [main], giving back its two local variables [results] and
    [all_passed] as they are when the last statement has run. *)
Definition main_body : M (list (string * bool) * bool) :=
  print (str_mul "=" 60) ;;
  print "🌑 ATOMIC DARK EMPIRE BOT - VALIDATION" ;;
  print (str_mul "=" 60) ;;
  results <- run_checks checks ;;
  print (nl +:+ str_mul "=" 60) ;;
  print "📊 VALIDATION SUMMARY" ;;
  print (str_mul "=" 60) ;;
  all_passed <- summarize results ;;
  print (str_mul "=" 60) ;;
  (if all_passed : bool then
     print "✅ ALL CHECKS PASSED! Bot is ready to run." ;;
     print (nl +:+ "🚀 Start the bot with: python bot.py")
   else
     print "❌ SOME CHECKS FAILED! Fix the issues above before running." ;;
     print (nl +:+ "📝 Install dependencies: pip install -r requirements.txt")) ;;
  print (str_mul "=" 60) ;;
  ret (results, all_passed).

(** [main()] itself returns [None]. *)
Definition main : M unit := main_body ;; ret tt.

(** [if __name__ == "__main__": main()]: the exit status of the interpreter
    is 0 when [main] returns and 1 when an exception reaches the top level. *)
Definition script (w : world) : Z * world * list event :=
  match main w with
  | (Return _, w', evs) => (0%Z, w', evs)
  | (Raise _, w', evs) => (1%Z, w', evs)
  end.

Definition exit_status (w : world) : Z := fst (fst (script w)).

(** ** What a run did *)

(** The paths tested with [exists], the paths opened, the directories
    created, the libraries whose import was attempted and the lines printed,
    each in the order of the run. *)
Definition tested (evs : list event) : list path :=
  flat_map (fun ev => match ev with Ev_exists p => [p] | _ => [] end) evs.

Definition opened (evs : list event) : list path :=
  flat_map (fun ev => match ev with Ev_open p | Ev_read p => [p] | _ => [] end) evs.

Definition created (evs : list event) : list path :=
  flat_map (fun ev => match ev with Ev_mkdir p => [p] | _ => [] end) evs.

Definition attempted (evs : list event) : list string :=
  flat_map (fun ev => match ev with Ev_import name => [name] | _ => [] end) evs.

Definition printed (evs : list event) : list string :=
  flat_map (fun ev => match ev with Ev_print line => [line] | _ => [] end) evs.

(** The two failure reports of [check_env_file]. *)
Definition reports_missing_file (evs : list event) : Prop :=
  In "   ❌ .env file not found!" (printed evs).

Definition reports_missing_variables (evs : list event) : Prop :=
  exists names, In ("   ❌ Missing variables: " +:+ names) (printed evs).

(** The world once [data/] has been added to the working directory. *)
Definition data_created (w : world) : world :=
  set_cwd (<["data" := Dir ∅]> (cwd w)) w.

(** The body of the loops of [check_required_files] and
    [check_commands_folder], and the events of one iteration. *)
Definition exists_body (mk : string -> path)
    (missing_line found_line : string -> string)
    (all_exist : bool) (file : string) : M bool :=
  found <- exists_ (mk file) ;;
  if negb found then
    print (missing_line file) ;;
    ret false
  else
    print (found_line file) ;;
    ret all_exist.

Definition exists_trace (mk : string -> path)
    (missing_line found_line : string -> string)
    (w : world) (file : string) : list event :=
  [Ev_exists (mk file);
   Ev_print (if path_exists w (mk file) then found_line file
             else missing_line file)].

(** ** The events of the runs *)

(** The module file [commands / cmd_file]. *)
Definition command_path (cmd_file : string) : path :=
  path_div (Path "commands") cmd_file.

(** The events of [check_dependencies] up to the end of each [try] block. *)
Definition deps_header : list event :=
  [Ev_print (nl +:+ "📚 Checking Python dependencies...")].

Definition discord_done (version : string) : list event :=
  deps_header ++
  [Ev_import "discord"; Ev_getattr "discord" "__version__";
   Ev_print ("   ✅ discord.py (" +:+ version +:+ ")")].

Definition dotenv_done (version : string) : list event :=
  discord_done version ++
  [Ev_import "dotenv"; Ev_print "   ✅ python-dotenv installed"].

(** What [main] prints around the checks. *)
Definition rule : string := str_mul "=" 60.

Definition banner : list event :=
  [Ev_print rule; Ev_print "🌑 ATOMIC DARK EMPIRE BOT - VALIDATION";
   Ev_print rule].

Definition status_line (r : string * bool) : event :=
  Ev_print ((if snd r then "✅ PASS" else "❌ FAIL") +:+ " - " +:+ fst r).

Definition guidance (all_passed : bool) : list event :=
  if all_passed then
    [Ev_print "✅ ALL CHECKS PASSED! Bot is ready to run.";
     Ev_print (nl +:+ "🚀 Start the bot with: python bot.py")]
  else
    [Ev_print "❌ SOME CHECKS FAILED! Fix the issues above before running.";
     Ev_print (nl +:+ "📝 Install dependencies: pip install -r requirements.txt")].

Definition summary_events (results : list (string * bool)) (all_passed : bool)
  : list event :=
  [Ev_print (nl +:+ rule); Ev_print "📊 VALIDATION SUMMARY"; Ev_print rule]
  ++ map status_line results
  ++ [Ev_print rule] ++ guidance all_passed ++ [Ev_print rule].

Definition is_print (ev : event) : Prop :=
  match ev with Ev_print _ => True | _ => False end.

(** ** How an import ends *)

(** The [try] block of discord completes when the import gives a module
    that has a version; the other two complete when the import gives a
    module. An import is caught by [except ImportError] when it raises that
    class. *)
Definition discord_ok (w : world) : Prop :=
  exists version, import_result w "discord" = Return (Some version).

Definition import_ok (w : world) (name : string) : Prop :=
  exists version, import_result w name = Return version.

Definition import_raises_ImportError (w : world) (name : string) : Prop :=
  exists e, import_result w name = Raise e /\ is_ImportError e = true.

(** ** Some worlds *)

(** An empty, writable working directory and no library. *)
Definition bare_world : world := World ∅ true ∅.

(** The same directory, not writable. *)
Definition read_only_world : world := World ∅ false ∅.

(** [.env] is a directory. *)
Definition env_is_directory : world := World {[".env" := Dir ∅]} true ∅.

(** discord is installed but its import raises a SyntaxError. *)
Definition discord_broken : world :=
  World ∅ true {["discord" := Broken (OtherException "SyntaxError")]}.

(** A project ready to run: the three keys are in [.env], in another order
    and with other text around them. *)
Definition env_text : string :=
  "# settings" +:+ nl +:+ "PREFIX=!" +:+ nl +:+ "OWNER_ID=42" +:+ nl
  +:+ "DISCORD_TOKEN=abc".

Definition commands_dir : gmap string node :=
  list_to_map (map (fun f => (f, File EmptyString)) required_commands).

Definition installed : gmap string module :=
  list_to_map [("discord", Module (Some "2.3.2")); ("dotenv", Module None);
               ("aiofiles", Module None)].

Definition ready_world : world :=
  World
    (list_to_map
       ((".env", File env_text) :: ("commands", Dir commands_dir)
        :: map (fun f => (f, File EmptyString)) required_files))
    true installed.

(** The same project with an [.env] that has no PREFIX and no OWNER_ID. *)
Definition token_only_world : world :=
  World (<[".env" := File "DISCORD_TOKEN=abc"]> (cwd ready_world))
        true installed.

(** ** What the validator looks at *)

Definition libraries : list string := ["discord"; "dotenv"; "aiofiles"].

(** The paths the script names: [.env], the required files, [commands], the
    module files below it, and [data]. *)
Definition watched_paths : list path :=
  [Path ".env"] ++ map Path required_files
  ++ [Path "commands"] ++ map command_path required_commands
  ++ [Path "data"].

(** The operations on those, and any printed line. *)
Definition allowed (ev : event) : Prop :=
  match ev with
  | Ev_print _ => True
  | Ev_exists p => In p watched_paths
  | Ev_open p | Ev_read p => p = Path ".env"
  | Ev_mkdir p => p = Path "data"
  | Ev_import name => In name libraries
  | Ev_getattr name attr => name = "discord" /\ attr = "__version__"
  end.

(** A printed line that starts with a space or a newline, as every line of
    the five checks does; any other event. *)
Definition check_line (ev : event) : Prop :=
  match ev with
  | Ev_print (String c _) => c = " "%char \/ c = "010"%char
  | Ev_print EmptyString => False
  | _ => True
  end.

(** A creation of a directory is the one event that is not [no_mkdir]. *)
Definition no_mkdir (ev : event) : Prop :=
  match ev with Ev_mkdir _ => False | _ => True end.

(** Started in a world where [Q] holds, [m] leaves a world where [Q] holds
    and every event of the run satisfies [P]. *)
Definition keeps {A} (Q : world -> Prop) (P : event -> Prop) (m : M A) : Prop :=
  forall w, Q w -> Q (world_of (m w)) /\ Forall P (events_of (m w)).

(** The condition on worlds that asks nothing. *)
Definition anywhere (w : world) : Prop := True.

(** The worlds where [data] exists. *)
Definition has_data (w : world) : Prop := is_Some (cwd w !! "data").

(** Two worlds the script cannot tell apart: the same [.env], the same
    answers of [exists] on the watched paths, the same writability and the
    same outcome of the three imports. *)
Definition same_inputs (w1 w2 : world) : Prop :=
  cwd w1 !! ".env" = cwd w2 !! ".env" /\
  (forall p, In p watched_paths -> path_exists w1 p = path_exists w2 p) /\
  writable w1 = writable w2 /\
  (forall name, In name libraries ->
                import_result w1 name = import_result w2 name).

(** [m] does the same in worlds with the same inputs, and leaves worlds
    with the same inputs. *)
Definition alike {A} (m : M A) : Prop :=
  forall w1 w2,
    same_inputs w1 w2 ->
    result_of (m w1) = result_of (m w2) /\
    events_of (m w1) = events_of (m w2) /\
    same_inputs (world_of (m w1)) (world_of (m w2)).

(** ** When a project is ready, and when the run breaks off *)

Definition env_ready (w : world) : Prop :=
  exists content,
    cwd w !! ".env" = Some (File content) /\
    forall k, In k required_vars -> is_substring k content.

Definition files_ready (w : world) : Prop :=
  forall file, In file required_files -> path_exists w (Path file) = true.

Definition commands_ready (w : world) : Prop :=
  forall cmd_file,
    In cmd_file required_commands ->
    path_exists w (command_path cmd_file) = true.

Definition dependencies_ready (w : world) : Prop :=
  discord_ok w /\ import_ok w "dotenv" /\ import_ok w "aiofiles".

Definition project_ready (w : world) : Prop :=
  env_ready w /\ files_ready w /\ commands_ready w /\
  (has_data w \/ writable w = true) /\ dependencies_ready w.

(** [.env] is there but is a directory. *)
Definition env_unreadable (w : world) : Prop :=
  exists es, cwd w !! ".env" = Some (Dir es).

(** [data] is missing and cannot be created. *)
Definition data_blocked (w : world) : Prop :=
  cwd w !! "data" = None /\ writable w = false.

(** The exception [e] that [check_dependencies] lets through: from the first
    import that raises, when it is not an ImportError, or from the version
    of a discord module that has none. *)
Definition dependencies_raise (w : world) (e : exception) : Prop :=
  (import_result w "discord" = Raise e /\ is_ImportError e = false) \/
  (import_result w "discord" = Return None /\ e = AttributeError) \/
  (discord_ok w /\
   import_result w "dotenv" = Raise e /\ is_ImportError e = false) \/
  (discord_ok w /\ import_ok w "dotenv" /\
   import_result w "aiofiles" = Raise e /\ is_ImportError e = false).

Definition fatal (w : world) : Prop :=
  env_unreadable w \/ data_blocked w \/ exists e, dependencies_raise w e.

(** The two lines that tell the verdict, and the head of the summary. *)
Definition passed_line : string := "✅ ALL CHECKS PASSED! Bot is ready to run.".

Definition failed_line : string :=
  "❌ SOME CHECKS FAILED! Fix the issues above before running.".

Definition summary_line : string := "📊 VALIDATION SUMMARY".

(** The names in the working directory that the script looks at. *)
Definition watched_names : list string :=
  [".env"] ++ required_files ++ ["commands"; "data"].

(** An import is the one event that is not [no_import]. *)
Definition no_import (ev : event) : Prop :=
  match ev with Ev_import _ => False | _ => True end.

(** ** Operations that the environment refuses *)

(** The operations above succeed wherever the tree of the working directory
    lets them: every line is printed, every existence test answers, every
    regular file opens and decodes. Whether they do is up to the environment,
    not to the script: stdout may be unable to encode a line
    (UnicodeEncodeError) or be closed, a test may be denied below a directory
    that cannot be searched, [.env] may be unreadable (PermissionError) or
    hold bytes that do not decode (UnicodeDecodeError).

    In [Faults] the environment may refuse any operation the script
    attempts: [refuses ev] is the exception it then raises. The attempt is
    recorded as the event [ev], and an operation that is not refused goes on
    as above. The checks and [main] are the text of the source once more,
    over these operations. Within one check no operation is attempted twice,
    so that a refusal by event loses nothing against a refusal by position.
    Exceptions that no operation of the script raises (KeyboardInterrupt,
    MemoryError) stay outside. *)
Module Faults.
Section Refusals.

Variable refuses : event -> option exception.

Definition attempt {A} (ev : event) (op : M A) : M A :=
  fun w =>
    match refuses ev with
    | Some e => (Raise e, w, [ev])
    | None => op w
    end.

(** On the right of each definition stands the operation of the same name
    defined above. *)
Definition print (line : string) : M unit :=
  attempt (Ev_print line) (print line).

Definition exists_ (p : path) : M bool :=
  attempt (Ev_exists p) (exists_ p).

(** [with open(p, 'r') as f: content = f.read()]: the opening can be
    refused, and then the reading. *)
Definition open_read (p : path) : M string :=
  attempt (Ev_open p) (fun w =>
    match lookup_path w p with
    | Some (File content) =>
        match refuses (Ev_read p) with
        | Some e => (Raise e, w, [Ev_open p; Ev_read p])
        | None => (Return content, w, [Ev_open p; Ev_read p])
        end
    | Some (Dir _) => (Raise IsADirectoryError, w, [Ev_open p])
    | None => (Raise FileNotFoundError, w, [Ev_open p])
    end).

Definition mkdir (p : path) : M unit :=
  attempt (Ev_mkdir p) (mkdir p).

Definition import_ (name : string) : M (option string) :=
  attempt (Ev_import name) (import_ name).

Definition getattr_version (name : string) (version : option string)
  : M string :=
  attempt (Ev_getattr name "__version__") (getattr_version name version).

Definition check_env_file : M bool :=
  print (nl +:+ "📁 Checking .env file...") ;;
  let env_path := Path ".env" in
  found <- exists_ env_path ;;
  if negb found then
    print "   ❌ .env file not found!" ;;
    print "   📝 Create .env with:" ;;
    print "      DISCORD_TOKEN=your_token_here" ;;
    print "      OWNER_ID=your_discord_id" ;;
    print "      PREFIX=!" ;;
    ret false
  else
    content <- open_read env_path ;;
    let missing := collect_missing required_vars content in
    match missing with
    | _ :: _ =>
        print ("   ❌ Missing variables: " +:+ join ", " missing) ;;
        ret false
    | [] =>
        print "   ✅ .env file is properly configured" ;;
        ret true
    end.

Definition check_required_files : M bool :=
  print (nl +:+ "📂 Checking required files...") ;;
  for_each required_files true (fun all_exist file =>
    found <- exists_ (Path file) ;;
    if negb found then
      print ("   ❌ Missing: " +:+ file) ;;
      ret false
    else
      print ("   ✅ Found: " +:+ file) ;;
      ret all_exist).

Definition check_commands_folder : M bool :=
  print (nl +:+ "📦 Checking commands folder...") ;;
  let commands_path := Path "commands" in
  found <- exists_ commands_path ;;
  if negb found then
    print "   ❌ commands/ folder not found!" ;;
    ret false
  else
    for_each required_commands true (fun all_exist cmd_file =>
      let cmd_path := path_div commands_path cmd_file in
      found <- exists_ cmd_path ;;
      if negb found then
        print ("   ❌ Missing: commands/" +:+ cmd_file) ;;
        ret false
      else
        print ("   ✅ Found: commands/" +:+ cmd_file) ;;
        ret all_exist).

Definition check_data_folder : M bool :=
  print (nl +:+ "💾 Checking data folder...") ;;
  let data_path := Path "data" in
  found <- exists_ data_path ;;
  (if negb found then
     print "   ⚠️  data/ folder not found, creating..." ;;
     mkdir data_path ;;
     print "   ✅ Created data/ folder"
   else
     print "   ✅ data/ folder exists") ;;
  ret true.

Definition check_dependencies : M bool :=
  print (nl +:+ "📚 Checking Python dependencies...") ;;
  try_except_ImportError
    (discord <- import_ "discord" ;;
     version <- getattr_version "discord" discord ;;
     print ("   ✅ discord.py (" +:+ version +:+ ")") ;;
     ret None)
    (print "   ❌ discord.py not installed" ;;
     ret (Some false)) ;;;
  try_except_ImportError
    (import_ "dotenv" ;;
     print "   ✅ python-dotenv installed" ;;
     ret None)
    (print "   ❌ python-dotenv not installed" ;;
     ret (Some false)) ;;;
  try_except_ImportError
    (import_ "aiofiles" ;;
     print "   ✅ aiofiles installed" ;;
     ret None)
    (print "   ❌ aiofiles not installed" ;;
     ret (Some false)) ;;;
  ret true.

Definition checks : list (string * M bool) :=
  [("Environment File", check_env_file);
   ("Required Files", check_required_files);
   ("Commands Modules", check_commands_folder);
   ("Data Folder", check_data_folder);
   ("Dependencies", check_dependencies)].

Definition summarize (results : list (string * bool)) : M bool :=
  for_each results true (fun all_passed r =>
    let status := if snd r then "✅ PASS" else "❌ FAIL" in
    print (status +:+ " - " +:+ fst r) ;;
    ret (if negb (snd r) then false else all_passed)).

Definition main_body : M (list (string * bool) * bool) :=
  print (str_mul "=" 60) ;;
  print "🌑 ATOMIC DARK EMPIRE BOT - VALIDATION" ;;
  print (str_mul "=" 60) ;;
  results <- run_checks checks ;;
  print (nl +:+ str_mul "=" 60) ;;
  print "📊 VALIDATION SUMMARY" ;;
  print (str_mul "=" 60) ;;
  all_passed <- summarize results ;;
  print (str_mul "=" 60) ;;
  (if all_passed : bool then
     print "✅ ALL CHECKS PASSED! Bot is ready to run." ;;
     print (nl +:+ "🚀 Start the bot with: python bot.py")
   else
     print "❌ SOME CHECKS FAILED! Fix the issues above before running." ;;
     print (nl +:+ "📝 Install dependencies: pip install -r requirements.txt")) ;;
  print (str_mul "=" 60) ;;
  ret (results, all_passed).

Definition main : M unit := main_body ;; ret tt.

Definition script (w : world) : Z * world * list event :=
  match main w with
  | (Return _, w', evs) => (0%Z, w', evs)
  | (Raise _, w', evs) => (1%Z, w', evs)
  end.

Definition exit_status (w : world) : Z := fst (fst (script w)).

(** The exception that the operation [ev] raises when it is attempted in
    [w], if any: the refusal of the environment, and otherwise what the
    operation itself raises there. *)
Definition raised (w : world) (ev : event) : option exception :=
  match refuses ev with
  | Some e => Some e
  | None =>
      match ev with
      | Ev_print _ | Ev_exists _ | Ev_read _ => None
      | Ev_open p =>
          match lookup_path w p with
          | Some (File _) => None
          | Some (Dir _) => Some IsADirectoryError
          | None => Some FileNotFoundError
          end
      | Ev_mkdir p =>
          match mkdir_in (cwd w) p with
          | inl e => Some e
          | inr _ => if writable w then None else Some PermissionError
          end
      | Ev_import name =>
          match import_result w name with
          | Raise e => Some e
          | Return _ => None
          end
      | Ev_getattr name _ =>
          match import_result w name with
          | Return None => Some AttributeError
          | _ => None
          end
      end
  end.

(** What the environment may be asked to grant: every line is printed,
    every existence test answers, no import and no reading of an attribute
    is interfered with. *)
Definition stdout_accepts : Prop := forall line, refuses (Ev_print line) = None.

Definition tests_answer : Prop := forall p, refuses (Ev_exists p) = None.

Definition imports_proceed : Prop :=
  (forall name, refuses (Ev_import name) = None) /\
  (forall name attr, refuses (Ev_getattr name attr) = None).

Definition no_refusal : Prop := forall ev, refuses ev = None.

End Refusals.
End Faults.




Definition env_undecodable (ev : event) : option exception :=
  match ev with
  | Ev_read [".env"] => Some (OtherException "UnicodeDecodeError")
  | _ => None
  end.

Definition nothing_refused (ev : event) : option exception := None.




(** [m1] and [m2] do the same in every world. *)
Definition same {A} (m1 m2 : M A) : Prop := forall w, m1 w = m2 w.

(** Whenever [m1] returns, it has done what [m2] does. *)
Definition agrees {A} (m1 m2 : M A) : Prop :=
  forall w a, result_of (m1 w) = Return a -> m1 w = m2 w.

(** * Properties *)

(** ** Strings: [contains] decides the substring relation *)

Lemma prefix_append (p post : string) : String.prefix p (p +:+ post) = true.
Proof.
  induction p as [|a p IH]; simpl.
  - now destruct post.
  - destruct (ascii_dec a a) as [_|ne]; [exact IH | now destruct ne].
Qed.

Lemma prefix_split (p s : string) :
  String.prefix p s = true -> exists post, s = p +:+ post.
Proof.
  revert s. induction p as [|a p IH]; intros s H.
  - now exists s.
  - destruct s as [|b s]; simpl in H; [discriminate|].
    destruct (ascii_dec a b) as [->|_]; [|discriminate].
    destruct (IH s H) as [post ->]. now exists post.
Qed.

Lemma contains_spec (sub s : string) :
  contains sub s = true <-> is_substring sub s.
Proof.
  split.
  - induction s as [|c s IH]; cbn [contains]; intros H.
    + apply orb_true_iff in H as [H|H]; [|discriminate].
      apply prefix_split in H as [post H]. now exists EmptyString, post.
    + apply orb_true_iff in H as [H|H].
      * apply prefix_split in H as [post H]. now exists EmptyString, post.
      * destruct (IH H) as (pre & post & ->). now exists (String c pre), post.
  - intros (pre & post & ->).
    induction pre as [|c pre IH].
    + change (EmptyString +:+ sub +:+ post) with (sub +:+ post).
      destruct (sub +:+ post) eqn:E; cbn [contains]; rewrite <- E, prefix_append;
        reflexivity.
    + change (String c pre +:+ sub +:+ post)
        with (String c (pre +:+ sub +:+ post)).
      cbn [contains]. rewrite IH. apply orb_true_r.
Qed.

Lemma contains_false (sub s : string) :
  contains sub s = false <-> ~ is_substring sub s.
Proof.
  rewrite <- contains_spec. now destruct (contains sub s).
Qed.

(** ** The loop that collects missing variables is a filter *)

Lemma collect_missing_from (vars acc : list string) (content : string) :
  fold_left
    (fun missing var =>
       if negb (contains var content) then missing ++ [var] else missing)
    vars acc
  = acc ++ List.filter (fun var => negb (contains var content)) vars.
Proof.
  revert acc. induction vars as [|v vars IH]; intros acc; simpl.
  - now rewrite app_nil_r.
  - rewrite IH. destruct (negb (contains v content)); simpl.
    + now rewrite <- app_assoc.
    + reflexivity.
Qed.

Lemma collect_missing_filter (vars : list string) (content : string) :
  collect_missing vars content
  = List.filter (fun var => negb (contains var content)) vars.
Proof. unfold collect_missing. now rewrite collect_missing_from. Qed.

Lemma In_collect_missing (vars : list string) (content k : string) :
  In k (collect_missing vars content) <-> In k vars /\ ~ is_substring k content.
Proof.
  rewrite collect_missing_filter, filter_In, negb_true_iff, contains_false.
  reflexivity.
Qed.

(** ** Lookups at the paths the script tests *)

Lemma lookup_path_top (w : world) (name : string) :
  lookup_path w (Path name) = cwd w !! name.
Proof. unfold lookup_path, Path. simpl. now destruct (cwd w !! name). Qed.

(** ** Stepping through a run *)

Ltac run :=
  cbv beta iota zeta delta
    [bind print emit exists_ open_read mkdir import_ getattr_version ret
     or_continue try_except_ImportError path_exists negb app].

(** ** The existence loop shared by the two file checks *)

Section ExistsLoop.
Variables (mk : string -> path) (missing_line found_line : string -> string).

Lemma exists_loop_run (files : list string) (acc : bool) (w : world) :
  for_each files acc (exists_body mk missing_line found_line) w
  = (Return (acc && forallb (fun f => path_exists w (mk f)) files), w,
     flat_map (exists_trace mk missing_line found_line w) files).
Proof.
  revert acc. induction files as [|f files IH]; intros acc.
  - simpl. unfold ret. now rewrite andb_true_r.
  - cbn [for_each]. unfold bind at 1.
    unfold exists_body at 1, bind, exists_, print, emit, ret.
    cbn [flat_map forallb]. unfold exists_trace at 1.
    destruct (path_exists w (mk f)); cbn [negb]; rewrite IH; cbn [app andb].
    + reflexivity.
    + now rewrite andb_false_r.
Qed.
End ExistsLoop.

(** ** What each check does, by cases on the world *)

Lemma check_env_file_run (w : world) :
  check_env_file w =
  match cwd w !! ".env" with
  | None =>
      (Return false, w,
       [Ev_print (nl +:+ "📁 Checking .env file..."); Ev_exists [".env"];
        Ev_print "   ❌ .env file not found!";
        Ev_print "   📝 Create .env with:";
        Ev_print "      DISCORD_TOKEN=your_token_here";
        Ev_print "      OWNER_ID=your_discord_id";
        Ev_print "      PREFIX=!"])
  | Some (Dir _) =>
      (Raise IsADirectoryError, w,
       [Ev_print (nl +:+ "📁 Checking .env file..."); Ev_exists [".env"];
        Ev_open [".env"]])
  | Some (File content) =>
      match collect_missing required_vars content with
      | [] =>
          (Return true, w,
           [Ev_print (nl +:+ "📁 Checking .env file..."); Ev_exists [".env"];
            Ev_open [".env"]; Ev_read [".env"];
            Ev_print "   ✅ .env file is properly configured"])
      | (_ :: _) as missing =>
          (Return false, w,
           [Ev_print (nl +:+ "📁 Checking .env file..."); Ev_exists [".env"];
            Ev_open [".env"]; Ev_read [".env"];
            Ev_print ("   ❌ Missing variables: " +:+ join ", " missing)])
      end
  end.
Proof.
  unfold check_env_file. run. rewrite lookup_path_top.
  destruct (cwd w !! ".env") as [[content|es]|] eqn:E; run;
    rewrite ?lookup_path_top, ?E; run; try reflexivity.
  destruct (collect_missing required_vars content); reflexivity.
Qed.

Lemma check_required_files_run (w : world) :
  check_required_files w =
  (Return (forallb (fun f => path_exists w (Path f)) required_files), w,
   Ev_print (nl +:+ "📂 Checking required files...")
   :: flat_map
        (exists_trace Path (fun f => "   ❌ Missing: " +:+ f)
                      (fun f => "   ✅ Found: " +:+ f) w)
        required_files).
Proof.
  unfold check_required_files.
  change (for_each required_files true _)
    with (for_each required_files true
            (exists_body Path (fun f => "   ❌ Missing: " +:+ f)
                         (fun f => "   ✅ Found: " +:+ f))).
  unfold bind at 1, print, emit. rewrite exists_loop_run. reflexivity.
Qed.

Lemma check_commands_folder_run (w : world) :
  check_commands_folder w =
  match cwd w !! "commands" with
  | None =>
      (Return false, w,
       [Ev_print (nl +:+ "📦 Checking commands folder...");
        Ev_exists ["commands"];
        Ev_print "   ❌ commands/ folder not found!"])
  | Some _ =>
      (Return (forallb (fun f => path_exists w (command_path f))
                       required_commands), w,
       Ev_print (nl +:+ "📦 Checking commands folder...")
       :: Ev_exists ["commands"]
       :: flat_map
            (exists_trace command_path
               (fun f => "   ❌ Missing: commands/" +:+ f)
               (fun f => "   ✅ Found: commands/" +:+ f) w)
            required_commands)
  end.
Proof.
  unfold check_commands_folder.
  change (for_each required_commands true _)
    with (for_each required_commands true
            (exists_body command_path
               (fun f => "   ❌ Missing: commands/" +:+ f)
               (fun f => "   ✅ Found: commands/" +:+ f))).
  unfold bind at 1, print, emit. unfold bind at 1, exists_, path_exists.
  rewrite lookup_path_top.
  destruct (cwd w !! "commands") as [n|]; cbn [negb].
  - rewrite exists_loop_run. reflexivity.
  - reflexivity.
Qed.

Lemma check_data_folder_run (w : world) :
  check_data_folder w =
  match cwd w !! "data" with
  | Some _ =>
      (Return true, w,
       [Ev_print (nl +:+ "💾 Checking data folder..."); Ev_exists ["data"];
        Ev_print "   ✅ data/ folder exists"])
  | None =>
      if writable w then
        (Return true, data_created w,
         [Ev_print (nl +:+ "💾 Checking data folder..."); Ev_exists ["data"];
          Ev_print "   ⚠️  data/ folder not found, creating...";
          Ev_mkdir ["data"]; Ev_print "   ✅ Created data/ folder"])
      else
        (Raise PermissionError, w,
         [Ev_print (nl +:+ "💾 Checking data folder..."); Ev_exists ["data"];
          Ev_print "   ⚠️  data/ folder not found, creating...";
          Ev_mkdir ["data"]])
  end.
Proof.
  unfold check_data_folder. run. rewrite lookup_path_top.
  destruct (cwd w !! "data") as [n|] eqn:E; run; [reflexivity|].
  unfold Path, mkdir_in. rewrite E.
  destruct (writable w); reflexivity.
Qed.

Lemma check_dependencies_run (w : world) :
  check_dependencies w =
  match import_result w "discord" with
  | Raise e =>
      if is_ImportError e
      then (Return false, w,
            deps_header ++
            [Ev_import "discord"; Ev_print "   ❌ discord.py not installed"])
      else (Raise e, w, deps_header ++ [Ev_import "discord"])
  | Return None =>
      (Raise AttributeError, w,
       deps_header ++ [Ev_import "discord"; Ev_getattr "discord" "__version__"])
  | Return (Some version) =>
      match import_result w "dotenv" with
      | Raise e =>
          if is_ImportError e
          then (Return false, w,
                discord_done version ++
                [Ev_import "dotenv";
                 Ev_print "   ❌ python-dotenv not installed"])
          else (Raise e, w, discord_done version ++ [Ev_import "dotenv"])
      | Return _ =>
          match import_result w "aiofiles" with
          | Raise e =>
              if is_ImportError e
              then (Return false, w,
                    dotenv_done version ++
                    [Ev_import "aiofiles";
                     Ev_print "   ❌ aiofiles not installed"])
              else (Raise e, w, dotenv_done version ++ [Ev_import "aiofiles"])
          | Return _ =>
              (Return true, w,
               dotenv_done version ++
               [Ev_import "aiofiles"; Ev_print "   ✅ aiofiles installed"])
          end
      end
  end.
Proof.
  unfold check_dependencies. run.
  destruct (import_result w "discord") as [[v|]|e]; run.
  - destruct (import_result w "dotenv") as [v'|e]; run.
    + destruct (import_result w "aiofiles") as [v''|e]; run.
      * reflexivity.
      * destruct (is_ImportError e); reflexivity.
    + destruct (is_ImportError e); reflexivity.
  - reflexivity.
  - destruct (is_ImportError e); reflexivity.
Qed.

Lemma tested_exists_trace mk missing_line found_line (w : world) (files : list string) :
  tested (flat_map (exists_trace mk missing_line found_line w) files)
  = map mk files.
Proof.
  induction files as [|f files IH]; [reflexivity|].
  cbn [flat_map map]. unfold tested in *. rewrite flat_map_app, IH.
  reflexivity.
Qed.

Lemma collect_missing_nil (vars : list string) (content : string) :
  collect_missing vars content = []
  <-> forall k, In k vars -> is_substring k content.
Proof.
  split.
  - intros E k Hk. apply contains_spec.
    destruct (contains k content) eqn:C; [reflexivity|].
    assert (In k (collect_missing vars content)) as Hin.
    { apply In_collect_missing. split; [exact Hk|]. now apply contains_false. }
    rewrite E in Hin. destruct Hin.
  - intros H. destruct (collect_missing vars content) as [|k ks] eqn:E;
      [reflexivity|].
    assert (In k (collect_missing vars content)) as Hin
      by (rewrite E; now left).
    apply In_collect_missing in Hin as [Hk Hn]. destruct Hn. now apply H.
Qed.

Lemma collect_missing_NoDup (vars : list string) (content : string) :
  List.NoDup vars -> List.NoDup (collect_missing vars content).
Proof. rewrite collect_missing_filter. apply List.NoDup_filter. Qed.

Lemma required_vars_NoDup : List.NoDup required_vars.
Proof.
  unfold required_vars.
  repeat constructor; cbn [In]; intros H;
    repeat (destruct H as [H|H]; [discriminate H|]); exact H.
Qed.

(** ** The environment-file check *)

(** C3. For every content of [.env]: when the file exists and each of
    DISCORD_TOKEN, OWNER_ID and PREFIX occurs in it as a substring, at any
    position and in any order, [check_env_file] returns true; when the file
    exists and one of the three does not occur, or when there is no [.env],
    it returns false. *)
Theorem check_env_file_substrings (w : world) :
  (forall content,
      cwd w !! ".env" = Some (File content) ->
      is_substring "DISCORD_TOKEN" content ->
      is_substring "OWNER_ID" content ->
      is_substring "PREFIX" content ->
      result_of (check_env_file w) = Return true) /\
  (forall content,
      cwd w !! ".env" = Some (File content) ->
      ~ (is_substring "DISCORD_TOKEN" content /\
         is_substring "OWNER_ID" content /\
         is_substring "PREFIX" content) ->
      result_of (check_env_file w) = Return false) /\
  (cwd w !! ".env" = None ->
   result_of (check_env_file w) = Return false).
Proof.
  rewrite check_env_file_run. split; [|split].
  - intros content -> Ht Ho Hp.
    assert (collect_missing required_vars content = []) as ->; [|reflexivity].
    apply collect_missing_nil. intros k [<-|[<-|[<-|[]]]]; assumption.
  - intros content -> Hn.
    destruct (collect_missing required_vars content) eqn:E; [|reflexivity].
    destruct Hn. rewrite collect_missing_nil in E.
    repeat split; apply E; cbn; auto.
  - intros ->. reflexivity.
Qed.

(** C4. For every content of an existing [.env] that lacks at least one
    required key, [check_env_file] returns false and prints one
    missing-variables line, made of the keys that do not occur in the
    content, separated by a comma: the line names a required key exactly
    when the key does not occur in the content, so that none of the absent
    keys is left out and none of the present keys is named, and none is
    named twice. *)
Theorem check_env_file_names_missing (w : world) (content : string) :
  cwd w !! ".env" = Some (File content) ->
  (exists k, In k required_vars /\ ~ is_substring k content) ->
  exists missing message,
    result_of (check_env_file w) = Return false /\
    printed (events_of (check_env_file w))
    = [nl +:+ "📁 Checking .env file..."; message] /\
    message = "   ❌ Missing variables: " +:+ join ", " missing /\
    List.NoDup missing /\
    (forall k, In k missing <-> In k required_vars /\ ~ is_substring k content) /\
    (forall k, In k required_vars ->
               (is_substring k message <-> ~ is_substring k content)).
Proof.
  intros E (k & Hk & Hn).
  exists (collect_missing required_vars content),
    ("   ❌ Missing variables: "
     +:+ join ", " (collect_missing required_vars content)).
  rewrite check_env_file_run, E.
  destruct (collect_missing required_vars content) as [|m ms] eqn:Em.
  - rewrite collect_missing_nil in Em. destruct Hn. now apply Em.
  - split; [reflexivity|]. split; [reflexivity|]. split; [reflexivity|].
    rewrite <- Em. split; [|split].
    + apply collect_missing_NoDup, required_vars_NoDup.
    + intros k'. apply In_collect_missing.
    + clear. intros k Hk. rewrite <- contains_spec, <- contains_false.
      rewrite collect_missing_filter. unfold required_vars in *.
      cbn [List.filter].
      destruct (contains "DISCORD_TOKEN" content) eqn:Ct,
               (contains "OWNER_ID" content) eqn:Co,
               (contains "PREFIX" content) eqn:Cp;
        cbn [negb app];
        repeat (destruct Hk as [<-|Hk];
                [rewrite ?Ct, ?Co, ?Cp; vm_compute; split; congruence|]);
        destruct Hk.
Qed.

(** C10. When there is no [.env], [check_env_file] returns false and neither
    opens nor reads any file; and in no world does one run print both the
    file-not-found report and the missing-variables report. *)
Theorem check_env_file_failure_modes_exclusive (w : world) :
  (cwd w !! ".env" = None ->
   result_of (check_env_file w) = Return false /\
   opened (events_of (check_env_file w)) = [] /\
   reports_missing_file (events_of (check_env_file w))) /\
  ~ (reports_missing_file (events_of (check_env_file w)) /\
     reports_missing_variables (events_of (check_env_file w))).
Proof.
  rewrite check_env_file_run. split.
  - intros ->. repeat split. cbn. auto.
  - unfold reports_missing_file, reports_missing_variables.
    destruct (cwd w !! ".env") as [[content|es]|].
    + destruct (collect_missing required_vars content) as [|m ms];
        intros [Hf _]; cbn in Hf;
        repeat (destruct Hf as [Hf|Hf]; [discriminate Hf|]); exact Hf.
    + intros [Hf _]. cbn in Hf.
      repeat (destruct Hf as [Hf|Hf]; [discriminate Hf|]); exact Hf.
    + intros [_ [names Hv]]. cbn in Hv.
      repeat (destruct Hv as [Hv|Hv]; [discriminate Hv|]); exact Hv.
Qed.

(** ** The data-folder check *)

Lemma cwd_data_created (w : world) (name : string) :
  cwd (data_created w) !! name
  = if decide (name = "data") then Some (Dir ∅) else cwd w !! name.
Proof.
  unfold data_created, set_cwd. cbn [cwd].
  destruct (decide (name = "data")) as [->|Hne].
  - apply lookup_insert_eq.
  - apply lookup_insert_ne. congruence.
Qed.

Lemma check_data_folder_present (w : world) :
  is_Some (cwd w !! "data") ->
  check_data_folder w =
  (Return true, w,
   [Ev_print (nl +:+ "💾 Checking data folder..."); Ev_exists ["data"];
    Ev_print "   ✅ data/ folder exists"]).
Proof. intros [n E]. now rewrite check_data_folder_run, E. Qed.

(** C5. [check_data_folder] never returns false. When [data] is absent and
    its creation does not raise, the check creates the directory and returns
    true (when the creation raises, the exception leaves the check and
    nothing is returned); when [data] is present it returns true, leaves the
    world as it is and creates nothing. So on the world left by a run that
    returned, a second run returns true, changes nothing and creates
    nothing. *)
Theorem check_data_folder_self_healing (w : world) :
  result_of (check_data_folder w) <> Return false /\
  (cwd w !! "data" = None ->
   (writable w = true ->
    result_of (check_data_folder w) = Return true /\
    created (events_of (check_data_folder w)) = [Path "data"] /\
    cwd (world_of (check_data_folder w)) = <["data" := Dir ∅]> (cwd w)) /\
   (writable w = false ->
    result_of (check_data_folder w) = Raise PermissionError)) /\
  (is_Some (cwd w !! "data") ->
   result_of (check_data_folder w) = Return true /\
   created (events_of (check_data_folder w)) = [] /\
   world_of (check_data_folder w) = w) /\
  (forall b, result_of (check_data_folder w) = Return b ->
   let w' := world_of (check_data_folder w) in
   result_of (check_data_folder w') = Return true /\
   created (events_of (check_data_folder w')) = [] /\
   world_of (check_data_folder w') = w').
Proof.
  split; [|split; [|split]].
  - rewrite check_data_folder_run.
    destruct (cwd w !! "data"); [discriminate|].
    destruct (writable w); discriminate.
  - intros E. rewrite check_data_folder_run, E.
    split; intros ->; repeat split.
  - intros H. rewrite (check_data_folder_present w H). repeat split.
  - intros b Hb w'.
    assert (is_Some (cwd w' !! "data")) as H.
    { subst w'. revert Hb. rewrite check_data_folder_run.
      destruct (cwd w !! "data") as [n|] eqn:E.
      - intros _. cbn. rewrite E. eauto.
      - destruct (writable w); [|discriminate]. intros _.
        unfold world_of. cbn [fst snd]. rewrite cwd_data_created.
        destruct (decide ("data" = "data")); [eauto|congruence]. }
    rewrite (check_data_folder_present w' H). repeat split.
Qed.

(** ** The commands-folder check *)

(** C6. When [commands] is absent, [check_commands_folder] returns false and
    the only path it has tested is [commands] itself: no module file is
    tested. Otherwise it tests, after [commands], every one of the six
    expected module files in order, whatever the earlier tests gave, and
    returns the conjunction of their existence. *)
Theorem check_commands_folder_fail_fast (w : world) :
  (cwd w !! "commands" = None ->
   result_of (check_commands_folder w) = Return false /\
   tested (events_of (check_commands_folder w)) = [Path "commands"]) /\
  (is_Some (cwd w !! "commands") ->
   tested (events_of (check_commands_folder w))
   = [Path "commands";
      ["commands"; "economy.py"]; ["commands"; "teams.py"];
      ["commands"; "marketplace.py"]; ["commands"; "moderation.py"];
      ["commands"; "server_build.py"]; ["commands"; "help_admin.py"]] /\
   result_of (check_commands_folder w)
   = Return (path_exists w ["commands"; "economy.py"]
             && path_exists w ["commands"; "teams.py"]
             && path_exists w ["commands"; "marketplace.py"]
             && path_exists w ["commands"; "moderation.py"]
             && path_exists w ["commands"; "server_build.py"]
             && path_exists w ["commands"; "help_admin.py"])).
Proof.
  rewrite check_commands_folder_run. split.
  - intros ->. split; reflexivity.
  - intros [n ->]. split.
    + unfold events_of. cbn [snd].
      change (tested (?a :: ?b :: ?l)) with (Path "commands" :: tested l).
      rewrite tested_exists_trace. reflexivity.
    + unfold result_of. cbn [fst forallb required_commands].
      change (command_path ?f) with ["commands"; f].
      now rewrite andb_true_r, !andb_assoc.
Qed.

(** ** The dependency check *)

(** Closes the propositional cases left once the imports are known. *)
Ltac settle :=
  repeat split; intros;
  repeat match goal with
    | H : _ \/ _ |- _ => destruct H
    | H : _ /\ _ |- _ => destruct H
    | H : exists _, _ |- _ => destruct H
    | H : False |- _ => destruct H
    end;
  try congruence; eauto 10.

(** C1, as stated, fails: with no library installed the check returns false
    after the attempt on discord alone; dotenv and aiofiles are not
    attempted. *)
Lemma check_dependencies_stops_at_first_failure :
  result_of (check_dependencies bare_world) = Return false /\
  attempted (events_of (check_dependencies bare_world)) = ["discord"] /\
  ~ (forall name, In name ["discord"; "dotenv"; "aiofiles"] ->
       In name (attempted (events_of (check_dependencies bare_world)))).
Proof.
  split; [reflexivity|]. split; [reflexivity|].
  intros H. specialize (H "dotenv" (or_intror (or_introl eq_refl))).
  vm_compute in H. destruct H as [H|[]]. discriminate H.
Qed.

(** C1, amended. [check_dependencies] attempts the imports in the order
    discord, dotenv, aiofiles and stops at the first [try] block that does
    not complete: dotenv is attempted exactly when the discord block
    completed, aiofiles exactly when the discord and dotenv blocks
    completed. It returns false exactly when the import it stopped at
    raised ImportError, and true exactly when all three blocks completed. *)
Theorem check_dependencies_sequential (w : world) :
  let run := check_dependencies w in
  (attempted (events_of run) = ["discord"] \/
   attempted (events_of run) = ["discord"; "dotenv"] \/
   attempted (events_of run) = ["discord"; "dotenv"; "aiofiles"]) /\
  (In "dotenv" (attempted (events_of run)) <-> discord_ok w) /\
  (In "aiofiles" (attempted (events_of run))
   <-> discord_ok w /\ import_ok w "dotenv") /\
  (result_of run = Return false
   <-> import_raises_ImportError w "discord" \/
       (discord_ok w /\ import_raises_ImportError w "dotenv") \/
       (discord_ok w /\ import_ok w "dotenv" /\
        import_raises_ImportError w "aiofiles")) /\
  (result_of run = Return true
   <-> discord_ok w /\ import_ok w "dotenv" /\ import_ok w "aiofiles").
Proof.
  cbv zeta. rewrite check_dependencies_run.
  unfold discord_ok, import_ok, import_raises_ImportError.
  destruct (import_result w "discord") as [[v|]|e] eqn:E1.
  - destruct (import_result w "dotenv") as [v'|e] eqn:E2.
    + destruct (import_result w "aiofiles") as [v''|e] eqn:E3.
      * cbn. settle.
      * destruct (is_ImportError e) eqn:Ee; cbn; settle.
    + destruct (is_ImportError e) eqn:Ee; cbn; settle.
  - cbn. settle.
  - destruct (is_ImportError e) eqn:Ee; cbn; settle.
Qed.

(** ** Which failures leave a check as an exception *)


(** ** main *)

Lemma summarize_from (results : list (string * bool)) (acc : bool) (w : world) :
  for_each results acc (fun all_passed r =>
    let status := if snd r then "✅ PASS" else "❌ FAIL" in
    print (status +:+ " - " +:+ fst r) ;;
    ret (if negb (snd r) then false else all_passed)) w
  = (Return (acc && forallb snd results), w, map status_line results).
Proof.
  revert acc. induction results as [|[name b] results IH]; intros acc.
  - cbn. unfold ret. now rewrite andb_true_r.
  - cbn [for_each]. unfold bind at 1. unfold bind at 1, print, emit, ret.
    cbn [snd fst]. rewrite IH. cbn [map forallb snd app].
    unfold status_line at 1. cbn [snd fst].
    destruct b; cbn [negb andb]; [reflexivity|].
    now rewrite andb_false_r.
Qed.

Lemma summarize_run (results : list (string * bool)) (w : world) :
  summarize results w
  = (Return (forallb snd results), w, map status_line results).
Proof. unfold summarize. now rewrite summarize_from. Qed.

Lemma main_body_run (w : world) :
  main_body w =
  match run_checks checks w with
  | (Return results, w', evs) =>
      (Return (results, forallb snd results), w',
       banner ++ evs ++ summary_events results (forallb snd results))
  | (Raise e, w', evs) => (Raise e, w', banner ++ evs)
  end.
Proof.
  unfold main_body. unfold bind at 1 2 3, print, emit. cbv beta iota.
  unfold bind at 1.
  destruct (run_checks checks w) as [[[results|e] w'] evs]; [|reflexivity].
  unfold bind at 1 2 3, print, emit. cbv beta iota.
  unfold bind at 1. rewrite summarize_run.
  unfold bind at 1, print, emit. cbv beta iota.
  unfold summary_events, guidance, banner, rule.
  destruct (forallb snd results);
    unfold bind, print, emit, ret; cbn [app]; rewrite ?app_nil_r;
    repeat f_equal; rewrite <- ?app_assoc; reflexivity.
Qed.

Lemma run_checks_run (w : world) :
  run_checks checks w =
  match check_env_file w with
  | (Raise e, w1, e1) => (Raise e, w1, e1)
  | (Return b1, w1, e1) =>
  match check_required_files w1 with
  | (Raise e, w2, e2) => (Raise e, w2, e1 ++ e2)
  | (Return b2, w2, e2) =>
  match check_commands_folder w2 with
  | (Raise e, w3, e3) => (Raise e, w3, e1 ++ e2 ++ e3)
  | (Return b3, w3, e3) =>
  match check_data_folder w3 with
  | (Raise e, w4, e4) => (Raise e, w4, e1 ++ e2 ++ e3 ++ e4)
  | (Return b4, w4, e4) =>
  match check_dependencies w4 with
  | (Raise e, w5, e5) => (Raise e, w5, e1 ++ e2 ++ e3 ++ e4 ++ e5)
  | (Return b5, w5, e5) =>
      (Return [("Environment File", b1); ("Required Files", b2);
               ("Commands Modules", b3); ("Data Folder", b4);
               ("Dependencies", b5)],
       w5, e1 ++ e2 ++ e3 ++ e4 ++ e5)
  end end end end end.
Proof.
  unfold run_checks, checks. cbn [for_each fst snd].
  cbv beta iota zeta delta [bind ret].
  destruct (check_env_file w) as [[[b1|e] w1] e1]; [|reflexivity].
  destruct (check_required_files w1) as [[[b2|e] w2] e2];
    [|now rewrite !app_nil_r].
  destruct (check_commands_folder w2) as [[[b3|e] w3] e3];
    [|now rewrite !app_nil_r].
  destruct (check_data_folder w3) as [[[b4|e] w4] e4];
    [|now rewrite !app_nil_r].
  destruct (check_dependencies w4) as [[[b5|e] w5] e5];
    now rewrite !app_nil_r.
Qed.

(** C2. In every world [main] calls the five checks in their order, each in
    the world its predecessor left, and goes on to the next whatever
    boolean a check returned: a false result stops nothing. The verdict is
    the conjunction of the five booleans, and the guidance printed is the
    one of that verdict. The run of the five is cut short only by an
    exception that leaves one of them. *)
Theorem main_runs_all_checks (w : world) :
  (forall b1 b2 b3 b4 b5 w1 w2 w3 w4 w5 e1 e2 e3 e4 e5,
      check_env_file w = (Return b1, w1, e1) ->
      check_required_files w1 = (Return b2, w2, e2) ->
      check_commands_folder w2 = (Return b3, w3, e3) ->
      check_data_folder w3 = (Return b4, w4, e4) ->
      check_dependencies w4 = (Return b5, w5, e5) ->
      let results :=
        [("Environment File", b1); ("Required Files", b2);
         ("Commands Modules", b3); ("Data Folder", b4);
         ("Dependencies", b5)] in
      let verdict := b1 && b2 && b3 && b4 && b5 in
      main_body w
      = (Return (results, verdict), w5,
         banner ++ (e1 ++ e2 ++ e3 ++ e4 ++ e5)
                ++ summary_events results verdict)) /\
  (forall e, result_of (main_body w) = Raise e ->
     exists name check w0,
       In (name, check) checks /\ result_of (check w0) = Raise e).
Proof.
  split.
  - intros b1 b2 b3 b4 b5 w1 w2 w3 w4 w5 e1 e2 e3 e4 e5 H1 H2 H3 H4 H5.
    cbv zeta. rewrite main_body_run, run_checks_run, H1, H2, H3, H4, H5.
    cbn [forallb snd]. now rewrite andb_true_r, !andb_assoc.
  - intros e. rewrite main_body_run, run_checks_run.
    destruct (check_env_file w) as [[[b1|e1'] w1] e1] eqn:H1.
    2:{ intros [= ->]. exists "Environment File", check_env_file, w.
        rewrite H1. cbn; auto. }
    destruct (check_required_files w1) as [[[b2|e2'] w2] e2] eqn:H2.
    2:{ intros [= ->]. exists "Required Files", check_required_files, w1.
        rewrite H2. cbn; auto. }
    destruct (check_commands_folder w2) as [[[b3|e3'] w3] e3] eqn:H3.
    2:{ intros [= ->]. exists "Commands Modules", check_commands_folder, w2.
        rewrite H3. cbn; auto. }
    destruct (check_data_folder w3) as [[[b4|e4'] w4] e4] eqn:H4.
    2:{ intros [= ->]. exists "Data Folder", check_data_folder, w3.
        rewrite H4. cbn; auto 6. }
    destruct (check_dependencies w4) as [[[b5|e5'] w5] e5] eqn:H5.
    + discriminate.
    + intros [= ->]. exists "Dependencies", check_dependencies, w4.
      rewrite H5. cbn; auto 7.
Qed.

(** C8. Whatever the verdict, pass or fail, [main] returns normally and the
    interpreter ends with exit status 0; a failing verdict shows only in
    what is printed: the run ends with the guidance of its verdict between
    two rules, and the guidance is made of printed lines. *)
Theorem main_returns_normally (w : world) results (verdict : bool) w' evs :
  main_body w = (Return (results, verdict), w', evs) ->
  main w = (Return tt, w', evs) /\
  exit_status w = 0%Z /\
  (exists before, evs = before ++ guidance verdict ++ [Ev_print rule]) /\
  Forall is_print (guidance verdict).
Proof.
  intros H. split; [|split; [|split]].
  - unfold main, bind, ret. rewrite H. now rewrite app_nil_r.
  - unfold exit_status, script, main, bind, ret. now rewrite H.
  - revert H. rewrite main_body_run.
    destruct (run_checks checks w) as [[[rs|e] w1] evs1]; [|discriminate].
    intros [= <- <- <- <-]. unfold summary_events.
    exists (banner ++ evs1
            ++ [Ev_print (nl +:+ rule); Ev_print "📊 VALIDATION SUMMARY";
                Ev_print rule]
            ++ map status_line rs ++ [Ev_print rule]).
    now rewrite <- !app_assoc.
  - destruct verdict; repeat constructor.
Qed.

(** ** Running the validator again *)

Lemma check_env_file_world (w : world) : world_of (check_env_file w) = w.
Proof.
  rewrite check_env_file_run.
  destruct (cwd w !! ".env") as [[content|es]|]; try reflexivity.
  destruct (collect_missing required_vars content); reflexivity.
Qed.

Lemma check_required_files_world (w : world) :
  world_of (check_required_files w) = w.
Proof. now rewrite check_required_files_run. Qed.

Lemma check_commands_folder_world (w : world) :
  world_of (check_commands_folder w) = w.
Proof.
  rewrite check_commands_folder_run. now destruct (cwd w !! "commands").
Qed.

Lemma check_dependencies_world (w : world) :
  world_of (check_dependencies w) = w.
Proof.
  rewrite check_dependencies_run.
  repeat match goal with
    | |- context [match ?x with _ => _ end] => destruct x
    | |- context [if ?x then _ else _] => destruct x
    end; reflexivity.
Qed.

(** Names the three components of the run of a check that leaves the world
    as it is. *)
Ltac open_run c w0 Hworld :=
  let W := fresh "W" in
  let r := fresh "r" in
  let w1 := fresh "w" in
  let evs := fresh "evs" in
  pose proof (Hworld w0) as W;
  destruct (c w0) as [[r w1] evs];
  unfold world_of, result_of in W |- *; cbn [fst snd] in W |- *;
  subst w1; destruct r; [|try reflexivity; try (now left)].

Lemma run_checks_result (w : world) :
  result_of (run_checks checks w) =
  match result_of (check_env_file w) with
  | Raise e => Raise e
  | Return b1 =>
  match result_of (check_required_files w) with
  | Raise e => Raise e
  | Return b2 =>
  match result_of (check_commands_folder w) with
  | Raise e => Raise e
  | Return b3 =>
  match result_of (check_data_folder w) with
  | Raise e => Raise e
  | Return b4 =>
  match result_of (check_dependencies (world_of (check_data_folder w))) with
  | Raise e => Raise e
  | Return b5 =>
      Return [("Environment File", b1); ("Required Files", b2);
              ("Commands Modules", b3); ("Data Folder", b4);
              ("Dependencies", b5)]
  end end end end end.
Proof.
  rewrite run_checks_run.
  open_run check_env_file w check_env_file_world.
  open_run check_required_files w check_required_files_world.
  open_run check_commands_folder w check_commands_folder_world.
  destruct (check_data_folder w) as [[[b4|e] w4] e4]; [|reflexivity].
  cbn [fst snd].
  destruct (check_dependencies w4) as [[[b5|e] w5] e5]; reflexivity.
Qed.

Lemma run_checks_world (w : world) :
  world_of (run_checks checks w) = w \/
  (cwd w !! "data" = None /\ writable w = true /\
   world_of (run_checks checks w) = data_created w).
Proof.
  rewrite run_checks_run.
  open_run check_env_file w check_env_file_world.
  open_run check_required_files w check_required_files_world.
  open_run check_commands_folder w check_commands_folder_world.
  rewrite check_data_folder_run.
  destruct (cwd w !! "data") as [n|] eqn:E.
  - open_run check_dependencies w check_dependencies_world. now left.
  - destruct (writable w) eqn:W; [|now left].
    open_run check_dependencies (data_created w) check_dependencies_world;
      now right.
Qed.

Lemma path_exists_data_created (w : world) (c : string) (p : path) :
  c <> "data" ->
  path_exists (data_created w) (c :: p) = path_exists w (c :: p).
Proof.
  intros Hne. unfold path_exists, lookup_path. cbn [resolve].
  rewrite cwd_data_created. now destruct (decide (c = "data")).
Qed.

Lemma check_env_file_data_created (w : world) :
  result_of (check_env_file (data_created w)) = result_of (check_env_file w).
Proof.
  rewrite !check_env_file_run, cwd_data_created.
  destruct (decide (".env" = "data")) as [H|_]; [discriminate H|].
  destruct (cwd w !! ".env") as [[content|es]|]; try reflexivity.
  destruct (collect_missing required_vars content); reflexivity.
Qed.

Lemma check_required_files_data_created (w : world) :
  result_of (check_required_files (data_created w))
  = result_of (check_required_files w).
Proof.
  rewrite !check_required_files_run. unfold result_of. cbn [fst].
  unfold required_files, Path. cbn [forallb].
  now rewrite !path_exists_data_created by discriminate.
Qed.

Lemma check_commands_folder_data_created (w : world) :
  result_of (check_commands_folder (data_created w))
  = result_of (check_commands_folder w).
Proof.
  rewrite !check_commands_folder_run, cwd_data_created.
  destruct (decide ("commands" = "data")) as [H|_]; [discriminate H|].
  destruct (cwd w !! "commands"); [|reflexivity].
  unfold result_of. cbn [fst].
  unfold required_commands, command_path, path_div, Path. cbn [forallb app].
  now rewrite !path_exists_data_created by discriminate.
Qed.

Lemma run_checks_data_created (w : world) :
  cwd w !! "data" = None -> writable w = true ->
  result_of (run_checks checks (data_created w))
  = result_of (run_checks checks w).
Proof.
  intros E W. rewrite !run_checks_result.
  rewrite check_env_file_data_created, check_required_files_data_created,
    check_commands_folder_data_created.
  assert (is_Some (cwd (data_created w) !! "data")) as H.
  { rewrite cwd_data_created.
    destruct (decide ("data" = "data")); [eauto|congruence]. }
  rewrite (check_data_folder_present _ H).
  rewrite (check_data_folder_run w), E, W. reflexivity.
Qed.

Lemma main_body_result (w : world) :
  result_of (main_body w) =
  match result_of (run_checks checks w) with
  | Return results => Return (results, forallb snd results)
  | Raise e => Raise e
  end.
Proof.
  rewrite main_body_run.
  now destruct (run_checks checks w) as [[[rs|e] w'] evs].
Qed.

Lemma main_body_world (w : world) :
  world_of (main_body w) = world_of (run_checks checks w).
Proof.
  rewrite main_body_run.
  now destruct (run_checks checks w) as [[[rs|e] w'] evs].
Qed.

(** C7. The outcome of the validator is a function of the working
    directory, its writability and the installed libraries, which is all a
    [world] holds: a second run on a world the first run left unchanged is
    the first run again. And in every case a second run, on the world the
    first run left, gives the same five results and the same verdict (or the
    same exception) and leaves that world as it is. *)
Theorem validator_rerun_identical (w : world) :
  let first := main_body w in
  let second := main_body (world_of first) in
  (world_of first = w -> second = first) /\
  result_of second = result_of first /\
  world_of second = world_of first.
Proof.
  cbv zeta. split; [now intros ->|].
  rewrite !main_body_result, !main_body_world.
  destruct (run_checks_world w) as [H|(E & W & H)]; rewrite H.
  - split; [reflexivity|exact H].
  - rewrite (run_checks_data_created w E W). split; [reflexivity|].
    destruct (run_checks_world (data_created w)) as [H'|(E' & _)];
      [exact H'|].
    rewrite cwd_data_created in E'.
    destruct (decide ("data" = "data")); [discriminate|congruence].
Qed.

(** * The theorems at concrete worlds *)

(** In the ready project the three imports are attempted and the check
    returns true. *)
Lemma check_dependencies_sequential_witness :
  result_of (check_dependencies ready_world) = Return true /\
  In "aiofiles" (attempted (events_of (check_dependencies ready_world))).
Proof.
  destruct (check_dependencies_sequential ready_world)
    as (_ & _ & Haio & _ & Htrue).
  split.
  - apply Htrue. repeat split; eexists; vm_compute; reflexivity.
  - apply Haio. repeat split; eexists; vm_compute; reflexivity.
Defined.

(** In the bare world four checks return false and [main] still runs all
    five. *)
Lemma main_runs_all_checks_witness :
  exists w' evs,
    main_body bare_world
    = (Return ([("Environment File", false); ("Required Files", false);
                ("Commands Modules", false); ("Data Folder", true);
                ("Dependencies", false)], false), w', evs).
Proof.
  eexists _, _.
  apply (proj1 (main_runs_all_checks bare_world)
           false false false true false
           bare_world bare_world bare_world
           (data_created bare_world) (data_created bare_world)
           (events_of (check_env_file bare_world))
           (events_of (check_required_files bare_world))
           (events_of (check_commands_folder bare_world))
           (events_of (check_data_folder bare_world))
           (events_of (check_dependencies (data_created bare_world))));
    vm_compute; reflexivity.
Defined.

(** The keys in another order pass; a file with the token alone and a
    missing file fail. *)
Lemma check_env_file_substrings_witness :
  result_of (check_env_file ready_world) = Return true /\
  result_of (check_env_file token_only_world) = Return false /\
  result_of (check_env_file bare_world) = Return false.
Proof.
  split; [|split].
  - apply (proj1 (check_env_file_substrings ready_world) env_text).
    + vm_compute; reflexivity.
    + apply contains_spec. vm_compute; reflexivity.
    + apply contains_spec. vm_compute; reflexivity.
    + apply contains_spec. vm_compute; reflexivity.
  - apply (proj1 (proj2 (check_env_file_substrings token_only_world))
             "DISCORD_TOKEN=abc").
    + vm_compute; reflexivity.
    + intros (_ & _ & H). apply contains_spec in H. vm_compute in H.
      discriminate H.
  - apply (proj2 (proj2 (check_env_file_substrings bare_world))).
    vm_compute; reflexivity.
Defined.

Lemma check_env_file_names_missing_witness :
  exists missing,
    result_of (check_env_file token_only_world) = Return false /\
    printed (events_of (check_env_file token_only_world))
    = [nl +:+ "📁 Checking .env file...";
       "   ❌ Missing variables: OWNER_ID, PREFIX"] /\
    "   ❌ Missing variables: OWNER_ID, PREFIX"
    = "   ❌ Missing variables: " +:+ join ", " missing /\
    List.NoDup missing /\
    (forall k, In k missing
               <-> In k required_vars /\ ~ is_substring k "DISCORD_TOKEN=abc") /\
    (forall k, In k required_vars ->
               (is_substring k "   ❌ Missing variables: OWNER_ID, PREFIX"
                <-> ~ is_substring k "DISCORD_TOKEN=abc")).
Proof.
  destruct (check_env_file_names_missing token_only_world "DISCORD_TOKEN=abc")
    as (missing & message & Hr & Hp & Hm & Hd & Hin & Hs).
  - vm_compute; reflexivity.
  - exists "PREFIX". split; [cbn; auto|].
    apply contains_false. vm_compute; reflexivity.
  - assert (message = "   ❌ Missing variables: OWNER_ID, PREFIX") as E.
    { vm_compute in Hp. injection Hp as Hp. symmetry. exact Hp. }
    rewrite E in Hp, Hm, Hs.
    exists missing. repeat (split; [assumption|]). exact Hs.
Defined.

Lemma check_env_file_failure_modes_exclusive_witness :
  result_of (check_env_file bare_world) = Return false /\
  opened (events_of (check_env_file bare_world)) = [] /\
  reports_missing_file (events_of (check_env_file bare_world)).
Proof.
  apply (proj1 (check_env_file_failure_modes_exclusive bare_world)).
  vm_compute; reflexivity.
Defined.

(** The first run in the bare world creates [data]; a run in the world it
    left finds it and creates nothing. *)
Lemma check_data_folder_self_healing_witness :
  (result_of (check_data_folder bare_world) = Return true /\
   created (events_of (check_data_folder bare_world)) = [Path "data"] /\
   cwd (world_of (check_data_folder bare_world))
   = <["data" := Dir ∅]> (cwd bare_world)) /\
  (result_of (check_data_folder (data_created bare_world)) = Return true /\
   created (events_of (check_data_folder (data_created bare_world))) = [] /\
   world_of (check_data_folder (data_created bare_world))
   = data_created bare_world) /\
  result_of (check_data_folder read_only_world) = Raise PermissionError.
Proof.
  split; [|split].
  - apply (proj1 (proj2 (check_data_folder_self_healing bare_world))).
    + vm_compute; reflexivity.
    + vm_compute; reflexivity.
  - apply (proj1 (proj2 (proj2
             (check_data_folder_self_healing (data_created bare_world))))).
    exists (Dir ∅). vm_compute; reflexivity.
  - apply (proj1 (proj2 (check_data_folder_self_healing read_only_world))).
    + vm_compute; reflexivity.
    + vm_compute; reflexivity.
Defined.

Lemma check_commands_folder_fail_fast_witness :
  (result_of (check_commands_folder bare_world) = Return false /\
   tested (events_of (check_commands_folder bare_world)) = [Path "commands"]) /\
  result_of (check_commands_folder ready_world) = Return true.
Proof.
  split.
  - apply (proj1 (check_commands_folder_fail_fast bare_world)).
    vm_compute; reflexivity.
  - destruct (proj2 (check_commands_folder_fail_fast ready_world)) as [_ H].
    + exists (Dir commands_dir). vm_compute; reflexivity.
    + rewrite H. vm_compute; reflexivity.
Defined.

(** A passing and a failing run both end with exit status 0. *)
Lemma main_returns_normally_witness :
  exit_status ready_world = 0%Z /\ exit_status bare_world = 0%Z.
Proof.
  split.
  - apply (main_returns_normally ready_world
             [("Environment File", true); ("Required Files", true);
              ("Commands Modules", true); ("Data Folder", true);
              ("Dependencies", true)] true
             (world_of (main_body ready_world))
             (events_of (main_body ready_world))).
    vm_compute; reflexivity.
  - apply (main_returns_normally bare_world
             [("Environment File", false); ("Required Files", false);
              ("Commands Modules", false); ("Data Folder", true);
              ("Dependencies", false)] false
             (world_of (main_body bare_world))
             (events_of (main_body bare_world))).
    vm_compute; reflexivity.
Defined.

(** Where [data] is there already, the second run is the first. *)
Lemma validator_rerun_identical_witness :
  main_body (world_of (main_body (data_created bare_world)))
  = main_body (data_created bare_world).
Proof.
  apply (proj1 (validator_rerun_identical (data_created bare_world))).
  vm_compute; reflexivity.
Defined.

(** * Beyond the checks one by one *)

(** ** A rule per construct for what a run keeps and emits *)

Section Keeps.
Variable Q : world -> Prop.
Variable P : event -> Prop.

Lemma keeps_ret {A} (a : A) : keeps Q P (ret a).
Proof. intros w H. split; [exact H|constructor]. Qed.

Lemma keeps_emit (ev : event) : P ev -> keeps Q P (emit ev).
Proof. intros H w Hw. split; [exact Hw|]. repeat constructor. exact H. Qed.

Lemma keeps_bind {A B} (m : M A) (k : A -> M B) :
  keeps Q P m -> (forall a, keeps Q P (k a)) -> keeps Q P (bind m k).
Proof.
  intros Hm Hk w Hw. unfold bind. destruct (Hm w Hw) as [Hw1 He1].
  destruct (m w) as [[[a|e] w1] evs1]; [|now split].
  destruct (Hk a w1 Hw1) as [Hw2 He2].
  destruct (k a w1) as [[r w2] evs2].
  split; [exact Hw2|]. apply Forall_app. split; assumption.
Qed.

Lemma keeps_for_each {A B} (xs : list A) (body : B -> A -> M B) :
  (forall acc x, In x xs -> keeps Q P (body acc x)) ->
  forall acc, keeps Q P (for_each xs acc body).
Proof.
  induction xs as [|x xs IH]; intros H acc; cbn [for_each].
  - apply keeps_ret.
  - apply keeps_bind.
    + apply H. now left.
    + intros acc'. apply IH. intros a y Hy. apply H. now right.
Qed.

Lemma keeps_try_except {A} (body handler : M A) :
  keeps Q P body -> keeps Q P handler ->
  keeps Q P (try_except_ImportError body handler).
Proof.
  intros Hb Hh w Hw. unfold try_except_ImportError.
  destruct (Hb w Hw) as [Hw1 He1].
  destruct (body w) as [[[a|e] w1] evs1]; [now split|].
  destruct (is_ImportError e); [|now split].
  destruct (Hh w1 Hw1) as [Hw2 He2].
  destruct (handler w1) as [[r w2] evs2].
  split; [exact Hw2|]. apply Forall_app. split; assumption.
Qed.

Lemma keeps_or_continue {A} (block : M (option A)) (rest : M A) :
  keeps Q P block -> keeps Q P rest -> keeps Q P (or_continue block rest).
Proof.
  intros Hb Hr. apply keeps_bind; [exact Hb|].
  intros [a|]; [apply keeps_ret|exact Hr].
Qed.

Lemma keeps_exists (p : path) : P (Ev_exists p) -> keeps Q P (exists_ p).
Proof. intros H w Hw. split; [exact Hw|]. repeat constructor. exact H. Qed.

Lemma keeps_open_read (p : path) :
  P (Ev_open p) -> P (Ev_read p) -> keeps Q P (open_read p).
Proof.
  intros Ho Hr w Hw. unfold open_read.
  destruct (lookup_path w p) as [[c|es]|];
    (split; [exact Hw|]); repeat constructor; assumption.
Qed.

Lemma keeps_mkdir (p : path) :
  P (Ev_mkdir p) ->
  (forall w es, Q w -> mkdir_in (cwd w) p = inr es -> Q (set_cwd es w)) ->
  keeps Q P (mkdir p).
Proof.
  intros H Hq w Hw. unfold mkdir.
  destruct (mkdir_in (cwd w) p) as [e|es] eqn:E; [|destruct (writable w)];
    (split; [try exact Hw; now apply Hq|]); repeat constructor; exact H.
Qed.

Lemma keeps_import (name : string) :
  P (Ev_import name) -> keeps Q P (import_ name).
Proof. intros H w Hw. split; [exact Hw|]. repeat constructor. exact H. Qed.

Lemma keeps_getattr (name : string) (version : option string) :
  P (Ev_getattr name "__version__") ->
  keeps Q P (getattr_version name version).
Proof.
  intros H w Hw. unfold getattr_version.
  destruct version; (split; [exact Hw|]); repeat constructor; exact H.
Qed.
End Keeps.

(** Takes a run apart construct by construct, leaving the events to check. *)
Ltac keeps_step :=
  first
    [ assumption
    | apply keeps_ret
    | apply keeps_or_continue
    | apply keeps_try_except
    | apply keeps_bind; [|intros ?]
    | apply keeps_for_each; intros ? ? ?
    | apply keeps_emit
    | apply keeps_exists
    | apply keeps_open_read
    | apply keeps_mkdir; [|intros ? ? ? ?]
    | apply keeps_import
    | apply keeps_getattr
    | match goal with
      | |- keeps _ _ (if ?b then _ else _) => destruct b
      | |- keeps _ _ (match ?l with [] => _ | _ :: _ => _ end) => destruct l
      | |- keeps _ _ (let _ := _ in _) => cbv zeta
      end ].

Ltac keeps_all := unfold print; repeat keeps_step.

(** Finds a path or a name in a list given in full. *)
Ltac listed := cbn; repeat (first [left; reflexivity | right]).

(** ** The operations of a run are on the watched paths and libraries *)

Lemma check_env_file_allowed : keeps anywhere allowed check_env_file.
Proof.
  unfold check_env_file. keeps_all; cbn [allowed]; auto; listed.
Qed.

Lemma check_required_files_allowed :
  keeps anywhere allowed check_required_files.
Proof.
  unfold check_required_files. keeps_all; cbn [allowed]; auto; listed.
Qed.

Lemma check_commands_folder_allowed :
  keeps anywhere allowed check_commands_folder.
Proof.
  unfold check_commands_folder. keeps_all; cbn [allowed]; auto; listed.
Qed.

Lemma check_data_folder_allowed : keeps anywhere allowed check_data_folder.
Proof.
  unfold check_data_folder. keeps_all; cbn [allowed]; auto; try exact I;
    listed.
Qed.

Lemma check_dependencies_allowed : keeps anywhere allowed check_dependencies.
Proof.
  unfold check_dependencies. keeps_all; cbn [allowed]; auto; listed.
Qed.

(** What the five checks keep and emit, [main] keeps and emits, once the
    lines [main] prints itself are in [P]. *)
Lemma main_body_keeps (Q : world -> Prop) (P : event -> Prop) :
  (forall line, P (Ev_print line)) ->
  keeps Q P check_env_file -> keeps Q P check_required_files ->
  keeps Q P check_commands_folder -> keeps Q P check_data_folder ->
  keeps Q P check_dependencies ->
  keeps Q P main_body.
Proof.
  intros Hp H1 H2 H3 H4 H5.
  unfold main_body, run_checks, summarize, checks.
  keeps_all; cbn [snd]; auto.
Qed.

Lemma main_run (w : world) :
  main w =
  (match result_of (main_body w) with
   | Return _ => Return tt
   | Raise e => Raise e
   end, world_of (main_body w), events_of (main_body w)).
Proof.
  unfold main, bind, ret.
  destruct (main_body w) as [[[r|e] w'] evs]; [|reflexivity].
  unfold result_of, world_of, events_of. cbn [fst snd].
  now rewrite app_nil_r.
Qed.

Lemma main_world (w : world) : world_of (main w) = world_of (main_body w).
Proof. now rewrite main_run. Qed.

Lemma main_events (w : world) : events_of (main w) = events_of (main_body w).
Proof. now rewrite main_run. Qed.

Lemma main_result (w : world) :
  result_of (main w) =
  match result_of (main_body w) with
  | Return _ => Return tt
  | Raise e => Raise e
  end.
Proof. now rewrite main_run. Qed.

Lemma In_tested (p : path) (evs : list event) :
  In p (tested evs) <-> In (Ev_exists p) evs.
Proof.
  unfold tested. rewrite in_flat_map. split.
  - intros ([] & Hin & Hp); cbn in Hp; try tauto.
    destruct Hp as [->|[]]. exact Hin.
  - intros H. exists (Ev_exists p). split; [exact H|now left].
Qed.

Lemma In_opened (p : path) (evs : list event) :
  In p (opened evs) <-> In (Ev_open p) evs \/ In (Ev_read p) evs.
Proof.
  unfold opened. rewrite in_flat_map. split.
  - intros ([] & Hin & Hp); cbn in Hp; try tauto;
      destruct Hp as [->|[]]; auto.
  - intros [H|H]; [exists (Ev_open p)|exists (Ev_read p)];
      (split; [exact H|now left]).
Qed.

Lemma In_created (p : path) (evs : list event) :
  In p (created evs) <-> In (Ev_mkdir p) evs.
Proof.
  unfold created. rewrite in_flat_map. split.
  - intros ([] & Hin & Hp); cbn in Hp; try tauto.
    destruct Hp as [->|[]]. exact Hin.
  - intros H. exists (Ev_mkdir p). split; [exact H|now left].
Qed.

Lemma In_attempted (name : string) (evs : list event) :
  In name (attempted evs) <-> In (Ev_import name) evs.
Proof.
  unfold attempted. rewrite in_flat_map. split.
  - intros ([] & Hin & Hp); cbn in Hp; try tauto.
    destruct Hp as [->|[]]. exact Hin.
  - intros H. exists (Ev_import name). split; [exact H|now left].
Qed.

Lemma In_printed (line : string) (evs : list event) :
  In line (printed evs) <-> In (Ev_print line) evs.
Proof.
  unfold printed. rewrite in_flat_map. split.
  - intros ([] & Hin & Hp); cbn in Hp; try tauto.
    destruct Hp as [->|[]]. exact Hin.
  - intros H. exists (Ev_print line). split; [exact H|now left].
Qed.

(** X1. Whatever the world, [main] tests no path outside the watched ones,
    opens and reads no file but [.env], creates no directory but [data] and
    imports no library but discord, dotenv and aiofiles. *)
Theorem main_touches_only_watched (w : world) :
  let evs := events_of (main w) in
  (forall p, In p (tested evs) -> In p watched_paths) /\
  (forall p, In p (opened evs) -> p = Path ".env") /\
  (forall p, In p (created evs) -> p = Path "data") /\
  (forall name, In name (attempted evs) -> In name libraries).
Proof.
  cbv zeta. rewrite main_events.
  assert (Forall allowed (events_of (main_body w))) as H.
  { apply (main_body_keeps anywhere allowed); try exact I.
    - intros line. exact I.
    - apply check_env_file_allowed.
    - apply check_required_files_allowed.
    - apply check_commands_folder_allowed.
    - apply check_data_folder_allowed.
    - apply check_dependencies_allowed. }
  rewrite List.Forall_forall in H. repeat split.
  - intros p Hp. apply In_tested in Hp. exact (H _ Hp).
  - intros p Hp. apply In_opened in Hp as [Hp|Hp]; exact (H _ Hp).
  - intros p Hp. apply In_created in Hp. exact (H _ Hp).
  - intros name Hn. apply In_attempted in Hn. exact (H _ Hn).
Qed.

(** ** What a run leaves of the world *)

(** X2. [main] leaves the writability and the libraries as they are, keeps
    every entry of the working directory as it is (none is removed, none is
    changed) and adds nothing but, possibly, an empty directory [data]. *)
Theorem main_changes_only_data (w : world) :
  let w' := world_of (main w) in
  writable w' = writable w /\
  site_packages w' = site_packages w /\
  (forall name n, cwd w !! name = Some n -> cwd w' !! name = Some n) /\
  (forall name, name <> "data" -> cwd w' !! name = cwd w !! name) /\
  (cwd w' !! "data" = cwd w !! "data" \/ cwd w' !! "data" = Some (Dir ∅)).
Proof.
  cbv zeta. rewrite main_world, main_body_world.
  destruct (run_checks_world w) as [->|(E & _ & ->)].
  - repeat split; auto.
  - repeat split.
    + intros name n Hn. rewrite cwd_data_created.
      destruct (decide (name = "data")) as [->|_]; [congruence|exact Hn].
    + intros name Hne. rewrite cwd_data_created.
      now destruct (decide (name = "data")).
    + right. rewrite cwd_data_created.
      now destruct (decide ("data" = "data")).
Qed.

Lemma has_data_created (w : world) : has_data (data_created w).
Proof.
  unfold has_data. rewrite cwd_data_created.
  destruct (decide ("data" = "data")); [eauto|congruence].
Qed.

Lemma run_checks_returns_data (w : world) results :
  result_of (run_checks checks w) = Return results ->
  has_data (world_of (run_checks checks w)).
Proof.
  rewrite run_checks_run.
  pose proof (check_env_file_world w) as W1.
  destruct (check_env_file w) as [[[b1|e] w1] e1]; [|discriminate].
  cbn in W1. subst w1.
  pose proof (check_required_files_world w) as W2.
  destruct (check_required_files w) as [[[b2|e] w2] e2]; [|discriminate].
  cbn in W2. subst w2.
  pose proof (check_commands_folder_world w) as W3.
  destruct (check_commands_folder w) as [[[b3|e] w3] e3]; [|discriminate].
  cbn in W3. subst w3.
  rewrite check_data_folder_run.
  destruct (cwd w !! "data") as [n|] eqn:E.
  - pose proof (check_dependencies_world w) as W5.
    destruct (check_dependencies w) as [[[b5|e] w5] e5]; [|discriminate].
    cbn in W5. subst w5. intros _. unfold has_data. cbn. rewrite E. eauto.
  - destruct (writable w); [|discriminate].
    pose proof (check_dependencies_world (data_created w)) as W5.
    destruct (check_dependencies (data_created w)) as [[[b5|e] w5] e5];
      [|discriminate].
    cbn in W5. subst w5. intros _. apply has_data_created.
Qed.

Lemma created_nil (evs : list event) :
  Forall no_mkdir evs -> created evs = [].
Proof.
  induction 1 as [|ev evs Hev _ IH]; [reflexivity|].
  unfold created in *. cbn [flat_map]. rewrite IH.
  destruct ev; try reflexivity. destruct Hev.
Qed.

Lemma check_data_folder_settled : keeps has_data no_mkdir check_data_folder.
Proof.
  intros w Hw. rewrite (check_data_folder_present w Hw).
  split; [exact Hw|]. repeat constructor.
Qed.

(** X3. When [main] returns, [data] exists in the world it leaves. When
    [data] exists at the start, [main] leaves the world exactly as it found
    it and creates nothing: a run after a run that returned writes nothing. *)
Theorem main_leaves_data (w : world) :
  (forall r, result_of (main w) = Return r -> has_data (world_of (main w))) /\
  (has_data w ->
   world_of (main w) = w /\ created (events_of (main w)) = []).
Proof.
  rewrite main_result, main_world, main_events.
  split.
  - intros r. rewrite main_body_result, main_body_world.
    destruct (result_of (run_checks checks w)) as [rs|e] eqn:E;
      [|discriminate].
    intros _. now apply (run_checks_returns_data w rs).
  - intros Hw. split.
    + rewrite main_body_world.
      destruct (run_checks_world w) as [H|(E & _)]; [exact H|].
      destruct Hw as [n Hn]. congruence.
    + apply created_nil.
      apply (main_body_keeps has_data no_mkdir); try exact Hw.
      * intros line. exact I.
      * unfold check_env_file. keeps_all; exact I.
      * unfold check_required_files. keeps_all; exact I.
      * unfold check_commands_folder. keeps_all; exact I.
      * apply check_data_folder_settled.
      * unfold check_dependencies. keeps_all; exact I.
Qed.

Lemma main_leaves_data_witness :
  has_data (world_of (main bare_world)) /\
  world_of (main (data_created bare_world)) = data_created bare_world /\
  created (events_of (main (data_created bare_world))) = [].
Proof.
  split.
  - apply (proj1 (main_leaves_data bare_world) tt). vm_compute; reflexivity.
  - apply (proj2 (main_leaves_data (data_created bare_world))).
    exists (Dir ∅). vm_compute; reflexivity.
Defined.

(** ** When each check returns true, and when it raises *)

Lemma check_env_file_true (w : world) :
  result_of (check_env_file w) = Return true <-> env_ready w.
Proof.
  rewrite check_env_file_run. unfold env_ready.
  destruct (cwd w !! ".env") as [[content|es]|].
  - destruct (collect_missing required_vars content) as [|k ks] eqn:E.
    + split; [|reflexivity]. intros _. exists content.
      split; [reflexivity|]. now apply collect_missing_nil.
    + split; [discriminate|]. intros (c & [= <-] & H).
      apply collect_missing_nil in H. congruence.
  - split; [discriminate|]. intros (c & H & _). discriminate H.
  - split; [discriminate|]. intros (c & H & _). discriminate H.
Qed.

Lemma check_env_file_raises (w : world) (e : exception) :
  result_of (check_env_file w) = Raise e
  <-> env_unreadable w /\ e = IsADirectoryError.
Proof.
  rewrite check_env_file_run. unfold env_unreadable.
  destruct (cwd w !! ".env") as [[content|es]|].
  - destruct (collect_missing required_vars content);
      (split; [discriminate|]); intros [[es H] _]; discriminate H.
  - split.
    + intros [= <-]. eauto.
    + intros [_ ->]. reflexivity.
  - split; [discriminate|]. intros [[es H] _]. discriminate H.
Qed.

Lemma check_required_files_true (w : world) :
  result_of (check_required_files w) = Return true <-> files_ready w.
Proof.
  rewrite check_required_files_run. unfold result_of, files_ready. cbn [fst].
  rewrite <- forallb_forall.
  destruct (forallb (fun f => path_exists w (Path f)) required_files);
    split; congruence.
Qed.

Lemma command_path_needs_folder (w : world) (cmd_file : string) :
  cwd w !! "commands" = None -> path_exists w (command_path cmd_file) = false.
Proof.
  intros E. unfold path_exists, lookup_path, command_path, path_div, Path.
  cbn [app resolve]. now rewrite E.
Qed.

Lemma check_commands_folder_true (w : world) :
  result_of (check_commands_folder w) = Return true <-> commands_ready w.
Proof.
  rewrite check_commands_folder_run. unfold commands_ready.
  destruct (cwd w !! "commands") as [n|] eqn:E.
  - unfold result_of. cbn [fst]. rewrite <- forallb_forall.
    destruct (forallb (fun f => path_exists w (command_path f))
                      required_commands);
      split; congruence.
  - split; [discriminate|]. intros H.
    specialize (H "economy.py" (or_introl eq_refl)).
    rewrite (command_path_needs_folder w _ E) in H. discriminate H.
Qed.

Lemma check_data_folder_true (w : world) :
  result_of (check_data_folder w) = Return true
  <-> has_data w \/ writable w = true.
Proof.
  rewrite check_data_folder_run. unfold has_data.
  destruct (cwd w !! "data") as [n|].
  - split; [eauto|reflexivity].
  - destruct (writable w).
    + split; [auto|reflexivity].
    + split; [discriminate|]. intros [[n H]|H]; discriminate H.
Qed.

Lemma check_data_folder_raises (w : world) (e : exception) :
  result_of (check_data_folder w) = Raise e
  <-> data_blocked w /\ e = PermissionError.
Proof.
  rewrite check_data_folder_run. unfold data_blocked.
  destruct (cwd w !! "data") as [n|].
  - split; [discriminate|]. intros [[H _] _]. discriminate H.
  - destruct (writable w).
    + split; [discriminate|]. intros [[_ H] _]. discriminate H.
    + split; [now intros [= <-]|now intros [_ ->]].
Qed.

Lemma check_dependencies_true (w : world) :
  result_of (check_dependencies w) = Return true <-> dependencies_ready w.
Proof.
  rewrite check_dependencies_run.
  unfold dependencies_ready, discord_ok, import_ok.
  destruct (import_result w "discord") as [[v|]|e] eqn:E1.
  - destruct (import_result w "dotenv") as [v'|e] eqn:E2.
    + destruct (import_result w "aiofiles") as [v''|e] eqn:E3.
      * cbn. settle.
      * destruct (is_ImportError e) eqn:Ee; cbn; settle.
    + destruct (is_ImportError e) eqn:Ee; cbn; settle.
  - cbn. settle.
  - destruct (is_ImportError e) eqn:Ee; cbn; settle.
Qed.

(** As [settle], once the exceptions that are equal have been made one. *)
Ltac settle_raise :=
  repeat split; intros;
  repeat match goal with
    | H : _ \/ _ |- _ => destruct H
    | H : _ /\ _ |- _ => destruct H
    | H : exists _, _ |- _ => destruct H
    | H : False |- _ => destruct H
    | H : Raise _ = Raise _ |- _ => injection H as H; subst
    end;
  try congruence; eauto 10.

Lemma check_dependencies_raises (w : world) (e : exception) :
  result_of (check_dependencies w) = Raise e <-> dependencies_raise w e.
Proof.
  rewrite check_dependencies_run.
  unfold dependencies_raise, discord_ok, import_ok.
  destruct (import_result w "discord") as [[v|]|e1] eqn:E1.
  - destruct (import_result w "dotenv") as [v'|e2] eqn:E2.
    + destruct (import_result w "aiofiles") as [v''|e3] eqn:E3.
      * cbn. settle_raise.
      * destruct (is_ImportError e3) eqn:Ee; cbn; settle_raise.
    + destruct (is_ImportError e2) eqn:Ee; cbn; settle_raise.
  - cbn. settle_raise.
  - destruct (is_ImportError e1) eqn:Ee; cbn; settle_raise.
Qed.

(** ** The verdict of [main] *)

Lemma check_dependencies_after_data (w : world) :
  result_of (check_dependencies (world_of (check_data_folder w)))
  = result_of (check_dependencies w).
Proof.
  rewrite check_data_folder_run.
  destruct (cwd w !! "data"); [reflexivity|].
  destruct (writable w); [|reflexivity].
  unfold world_of at 1. cbn [fst snd].
  rewrite !check_dependencies_run.
  change (import_result (data_created w)) with (import_result w).
  repeat match goal with
    | |- context [match ?x with _ => _ end] => destruct x
    | |- context [if ?x then _ else _] => destruct x
    end; reflexivity.
Qed.

(** The outcome of [main] from the outcomes of the checks: the two file
    checks always return, and the first exception of the other three is the
    one of [main]. *)
Lemma main_body_outcome (w : world) :
  exists b2 b3,
    result_of (check_required_files w) = Return b2 /\
    result_of (check_commands_folder w) = Return b3 /\
    result_of (main_body w) =
    match result_of (check_env_file w) with
    | Raise e => Raise e
    | Return b1 =>
    match result_of (check_data_folder w) with
    | Raise e => Raise e
    | Return b4 =>
    match result_of (check_dependencies w) with
    | Raise e => Raise e
    | Return b5 =>
        Return ([("Environment File", b1); ("Required Files", b2);
                 ("Commands Modules", b3); ("Data Folder", b4);
                 ("Dependencies", b5)],
                b1 && b2 && b3 && b4 && b5)
    end end end.
Proof.
  assert (exists b2, result_of (check_required_files w) = Return b2)
    as [b2 H2] by (rewrite check_required_files_run; eexists; reflexivity).
  assert (exists b3, result_of (check_commands_folder w) = Return b3)
    as [b3 H3].
  { rewrite check_commands_folder_run.
    destruct (cwd w !! "commands"); eexists; reflexivity. }
  exists b2, b3. split; [exact H2|]. split; [exact H3|].
  rewrite main_body_result, run_checks_result, H2, H3,
    check_dependencies_after_data.
  destruct (result_of (check_env_file w)) as [b1|e]; [|reflexivity].
  destruct (result_of (check_data_folder w)) as [b4|e]; [|reflexivity].
  destruct (result_of (check_dependencies w)) as [b5|e]; [|reflexivity].
  cbn [forallb snd]. now rewrite andb_true_r, !andb_assoc.
Qed.

Lemma main_body_passes (w : world) :
  (exists results, result_of (main_body w) = Return (results, true))
  <-> project_ready w.
Proof.
  destruct (main_body_outcome w) as (b2 & b3 & H2 & H3 & ->).
  unfold project_ready.
  rewrite <- check_env_file_true, <- check_required_files_true,
    <- check_commands_folder_true, <- check_data_folder_true,
    <- check_dependencies_true, H2, H3.
  destruct (result_of (check_env_file w)) as [b1|e1].
  2:{ split; [intros [rs H]; discriminate H|intros [H _]; discriminate H]. }
  destruct (result_of (check_data_folder w)) as [b4|e4].
  2:{ split; [intros [rs H]; discriminate H|].
      intros (_ & _ & _ & H & _). discriminate H. }
  destruct (result_of (check_dependencies w)) as [b5|e5].
  2:{ split; [intros [rs H]; discriminate H|].
      intros (_ & _ & _ & _ & H). discriminate H. }
  split.
  - intros [rs [= _ H]].
    destruct b1, b2, b3, b4, b5; try discriminate H. repeat split.
  - intros ([= ->] & [= ->] & [= ->] & [= ->] & [= ->]).
    eexists. reflexivity.
Qed.

Lemma main_body_breaks_off (w : world) :
  (exists e, result_of (main_body w) = Raise e) <-> fatal w.
Proof.
  destruct (main_body_outcome w) as (b2 & b3 & _ & _ & ->).
  unfold fatal.
  destruct (result_of (check_env_file w)) as [b1|e1] eqn:R1.
  - destruct (result_of (check_data_folder w)) as [b4|e4] eqn:R4.
    + destruct (result_of (check_dependencies w)) as [b5|e5] eqn:R5.
      * split; [intros [e H]; discriminate H|].
        intros [H|[H|[e H]]].
        -- assert (result_of (check_env_file w) = Raise IsADirectoryError)
             as H' by (apply check_env_file_raises; auto).
           congruence.
        -- assert (result_of (check_data_folder w) = Raise PermissionError)
             as H' by (apply check_data_folder_raises; auto).
           congruence.
        -- apply check_dependencies_raises in H. congruence.
      * split; [|eauto]. intros _. right; right. exists e5.
        now apply check_dependencies_raises.
    + split; [|eauto]. intros _. right; left.
      now apply (check_data_folder_raises w e4).
  - split; [|eauto]. intros _. left.
    now apply (check_env_file_raises w e1).
Qed.


(** ** The lines that tell the verdict *)

Lemma run_checks_keeps (Q : world -> Prop) (P : event -> Prop) :
  keeps Q P check_env_file -> keeps Q P check_required_files ->
  keeps Q P check_commands_folder -> keeps Q P check_data_folder ->
  keeps Q P check_dependencies ->
  keeps Q P (run_checks checks).
Proof.
  intros H1 H2 H3 H4 H5. unfold run_checks, checks.
  keeps_all; cbn [snd]; auto.
Qed.

(** Settles what a line starts with. *)
Ltac line_shape := try exact I; vm_compute; auto.

Lemma check_env_file_lines : keeps anywhere check_line check_env_file.
Proof. unfold check_env_file. keeps_all; line_shape. Qed.

Lemma check_required_files_lines :
  keeps anywhere check_line check_required_files.
Proof. unfold check_required_files. keeps_all; line_shape. Qed.

Lemma check_commands_folder_lines :
  keeps anywhere check_line check_commands_folder.
Proof. unfold check_commands_folder. keeps_all; line_shape. Qed.

Lemma check_data_folder_lines : keeps anywhere check_line check_data_folder.
Proof. unfold check_data_folder. keeps_all; line_shape. Qed.

Lemma check_dependencies_lines : keeps anywhere check_line check_dependencies.
Proof. unfold check_dependencies. keeps_all; line_shape. Qed.

Lemma run_checks_lines (w : world) :
  Forall check_line (events_of (run_checks checks w)).
Proof.
  apply (run_checks_keeps anywhere check_line); try exact I.
  - apply check_env_file_lines.
  - apply check_required_files_lines.
  - apply check_commands_folder_lines.
  - apply check_data_folder_lines.
  - apply check_dependencies_lines.
Qed.

Lemma not_among_check_lines (evs : list event) (line : string) :
  Forall check_line evs -> ~ check_line (Ev_print line) ->
  ~ In (Ev_print line) evs.
Proof.
  intros H Hn Hin. rewrite List.Forall_forall in H. exact (Hn (H _ Hin)).
Qed.

Lemma not_a_status_line (results : list (string * bool)) (line : string) :
  (forall name, line <> "✅ PASS - " +:+ name) ->
  (forall name, line <> "❌ FAIL - " +:+ name) ->
  ~ In (Ev_print line) (map status_line results).
Proof.
  intros Hp Hf Hin. apply in_map_iff in Hin as ([name b] & E & _).
  unfold status_line in E. cbn [fst snd] in E. injection E as E.
  destruct b; [apply (Hp name)|apply (Hf name)]; now rewrite <- E.
Qed.

(** A line of [main]'s own is printed by a run that returned exactly when
    it is in the banner, is the head of the summary or a rule, or is in the
    guidance of the verdict. *)
Lemma own_line_printed (evs : list event) (results : list (string * bool))
    (verdict : bool) (line : string) :
  Forall check_line evs ->
  ~ check_line (Ev_print line) ->
  (forall name, line <> "✅ PASS - " +:+ name) ->
  (forall name, line <> "❌ FAIL - " +:+ name) ->
  In (Ev_print line) (banner ++ evs ++ summary_events results verdict)
  <-> In (Ev_print line) banner \/ line = summary_line \/ line = rule \/
      In (Ev_print line) (guidance verdict).
Proof.
  intros L Hn Hp Hf. unfold summary_events. rewrite !in_app_iff. cbn [In].
  pose proof (not_among_check_lines evs line L Hn) as Ne.
  pose proof (not_a_status_line results line Hp Hf) as Ns.
  assert (Ev_print (nl +:+ rule) <> Ev_print line) as Nr.
  { intros [= <-]. apply Hn. vm_compute. auto. }
  split.
  - intros [H|[H|[[H|[H|[H|[]]]]|[H|[[H|[]]|[H|[H|[]]]]]]]]; auto;
      try tauto; try (injection H as <-; auto).
  - intros [H|[->|[->|H]]]; auto 10.
Qed.

(** Refutes that a given line is in a list of events given in full, or is
    another given line. *)
Ltac not_listed H :=
  exfalso; vm_compute in H;
  repeat (destruct H as [H|H]; [discriminate H|]);
  solve [discriminate H | exact H].

Lemma main_body_verdict_lines (w : world) :
  let lines := printed (events_of (main_body w)) in
  (In passed_line lines
   <-> exists results, result_of (main_body w) = Return (results, true)) /\
  (In failed_line lines
   <-> exists results, result_of (main_body w) = Return (results, false)) /\
  (In summary_line lines <-> exists r, result_of (main_body w) = Return r).
Proof.
  cbv zeta. rewrite !In_printed, main_body_run.
  pose proof (run_checks_lines w) as L.
  destruct (run_checks checks w) as [[[rs|e] w'] evs];
    unfold result_of, events_of in *; cbn [fst snd] in *.
  - rewrite (own_line_printed evs rs _ passed_line L),
      (own_line_printed evs rs _ failed_line L),
      (own_line_printed evs rs _ summary_line L);
      try match goal with
          | |- forall _ : string, _ => intros name H; not_listed H
          | |- ~ _ => intros H; not_listed H
          end.
    split; [|split].
    + split.
      * intros [H|[H|[H|H]]]; try not_listed H.
        destruct (forallb snd rs); [eauto|not_listed H].
      * intros [rs' [= _ ->]]. do 3 right. cbn. auto.
    + split.
      * intros [H|[H|[H|H]]]; try not_listed H.
        destruct (forallb snd rs); [not_listed H|eauto].
      * intros [rs' [= _ ->]]. do 3 right. cbn. auto.
    + split; [eauto|]. intros _. right; left. reflexivity.
  - rewrite !in_app_iff.
    pose proof (not_among_check_lines evs passed_line L) as Np.
    pose proof (not_among_check_lines evs failed_line L) as Nf.
    pose proof (not_among_check_lines evs summary_line L) as Ns.
    repeat split; try (intros [r H]; discriminate H).
    + intros [H|H]; [not_listed H|].
      destruct Np; [intros H'; not_listed H'|exact H].
    + intros [H|H]; [not_listed H|].
      destruct Nf; [intros H'; not_listed H'|exact H].
    + intros [H|H]; [not_listed H|].
      destruct Ns; [intros H'; not_listed H'|exact H].
Qed.

(** X6. [main] prints the line that all checks passed exactly in the worlds
    where the project is ready: [.env] is a file in which the three keys
    occur, the three required files and the six module files exist, [data]
    exists or can be created, and the three imports succeed, discord with a
    version. *)
Theorem main_announces_pass_iff_ready (w : world) :
  In passed_line (printed (events_of (main w))) <-> project_ready w.
Proof.
  rewrite main_events, <- main_body_passes.
  apply (main_body_verdict_lines w).
Qed.

(** ** Worlds the script cannot tell apart *)

Lemma same_inputs_refl (w : world) : same_inputs w w.
Proof. repeat split. Qed.

Lemma alike_ret {A} (a : A) : alike (ret a).
Proof. intros w1 w2 H. repeat split; apply H. Qed.

Lemma alike_emit (ev : event) : alike (emit ev).
Proof. intros w1 w2 H. repeat split; apply H. Qed.

Lemma alike_bind {A B} (m : M A) (k : A -> M B) :
  alike m -> (forall a, alike (k a)) -> alike (bind m k).
Proof.
  intros Hm Hk w1 w2 H. unfold bind.
  destruct (Hm w1 w2 H) as (Hr & He & Hw).
  destruct (m w1) as [[r1 w1'] evs1], (m w2) as [[r2 w2'] evs2].
  unfold result_of, events_of, world_of in Hr, He, Hw. cbn [fst snd] in *.
  subst r2 evs2. destruct r1 as [a|e]; [|repeat split; apply Hw].
  destruct (Hk a w1' w2' Hw) as (Hr' & He' & Hw').
  destruct (k a w1') as [[r1 w1''] evs1'], (k a w2') as [[r2 w2''] evs2'].
  unfold result_of, events_of, world_of in *. cbn [fst snd] in *.
  subst r2 evs2'. repeat split; apply Hw'.
Qed.

Lemma alike_for_each {A B} (xs : list A) (body : B -> A -> M B) :
  (forall acc x, In x xs -> alike (body acc x)) ->
  forall acc, alike (for_each xs acc body).
Proof.
  induction xs as [|x xs IH]; intros H acc; cbn [for_each].
  - apply alike_ret.
  - apply alike_bind.
    + apply H. now left.
    + intros acc'. apply IH. intros a y Hy. apply H. now right.
Qed.

Lemma alike_try_except {A} (body handler : M A) :
  alike body -> alike handler -> alike (try_except_ImportError body handler).
Proof.
  intros Hb Hh w1 w2 H. unfold try_except_ImportError.
  destruct (Hb w1 w2 H) as (Hr & He & Hw).
  destruct (body w1) as [[r1 w1'] evs1], (body w2) as [[r2 w2'] evs2].
  unfold result_of, events_of, world_of in Hr, He, Hw. cbn [fst snd] in *.
  subst r2 evs2. destruct r1 as [a|e]; [repeat split; apply Hw|].
  destruct (is_ImportError e); [|repeat split; apply Hw].
  destruct (Hh w1' w2' Hw) as (Hr' & He' & Hw').
  destruct (handler w1') as [[r1 w1''] evs1'],
           (handler w2') as [[r2 w2''] evs2'].
  unfold result_of, events_of, world_of in *. cbn [fst snd] in *.
  subst r2 evs2'. repeat split; apply Hw'.
Qed.

Lemma alike_or_continue {A} (block : M (option A)) (rest : M A) :
  alike block -> alike rest -> alike (or_continue block rest).
Proof.
  intros Hb Hr. apply alike_bind; [exact Hb|].
  intros [a|]; [apply alike_ret|exact Hr].
Qed.

Lemma alike_exists (p : path) : In p watched_paths -> alike (exists_ p).
Proof.
  intros Hp w1 w2 H. unfold exists_, result_of, events_of, world_of.
  cbn [fst snd]. destruct H as (He & Hx & Hw & Hi).
  rewrite (Hx p Hp). repeat split; assumption.
Qed.

Lemma alike_open_read_env : alike (open_read (Path ".env")).
Proof.
  intros w1 w2 H. unfold open_read. rewrite !lookup_path_top.
  destruct H as (He & Hx & Hw & Hi). rewrite He.
  destruct (cwd w2 !! ".env") as [[c|es]|] eqn:E2; repeat split;
    unfold world_of; cbn [fst snd]; first [assumption | congruence].
Qed.

Lemma alike_import (name : string) : In name libraries -> alike (import_ name).
Proof.
  intros Hn w1 w2 H. unfold import_, result_of, events_of, world_of.
  cbn [fst snd]. destruct H as (He & Hx & Hw & Hi).
  rewrite (Hi name Hn). repeat split; assumption.
Qed.

Lemma alike_getattr (name : string) (version : option string) :
  alike (getattr_version name version).
Proof.
  intros w1 w2 H. unfold getattr_version.
  destruct version; repeat split; apply H.
Qed.

Lemma path_exists_data (w : world) :
  path_exists w (Path "data") = true <-> has_data w.
Proof.
  unfold path_exists, has_data. rewrite lookup_path_top.
  destruct (cwd w !! "data"); split; eauto; try discriminate.
  intros [n H]. discriminate H.
Qed.

Lemma same_inputs_data_created (w1 w2 : world) :
  same_inputs w1 w2 -> same_inputs (data_created w1) (data_created w2).
Proof.
  intros (He & Hx & Hw & Hi). repeat split.
  - rewrite !cwd_data_created.
    now destruct (decide (".env" = "data")).
  - intros p Hp. pose proof (Hx p Hp) as Hxp.
    unfold watched_paths, required_files, required_commands, command_path,
      path_div, Path in Hp.
    cbn [map app In] in Hp.
    repeat (destruct Hp as [<-|Hp];
            [first [ rewrite !path_exists_data_created by discriminate;
                     exact Hxp
                   | transitivity true;
                     [|symmetry];
                     apply (path_exists_data (data_created _)),
                       has_data_created ]|]).
    destruct Hp.
  - exact Hw.
  - exact Hi.
Qed.

Lemma alike_mkdir_data : alike (mkdir (Path "data")).
Proof.
  intros w1 w2 H. unfold mkdir, Path, mkdir_in.
  pose proof H as (He & Hx & Hw & Hi).
  assert (In (Path "data") watched_paths) as Hd by (cbn; auto 20).
  pose proof (Hx _ Hd) as Hxd. unfold path_exists in Hxd.
  rewrite !lookup_path_top in Hxd.
  destruct (cwd w1 !! "data") as [n1|], (cwd w2 !! "data") as [n2|];
    try discriminate Hxd.
  - split; [reflexivity|]. split; [reflexivity|]. exact H.
  - rewrite Hw. destruct (writable w2).
    + split; [reflexivity|]. split; [reflexivity|].
      now apply same_inputs_data_created.
    + split; [reflexivity|]. split; [reflexivity|]. exact H.
Qed.

(** Takes two runs apart together, construct by construct. *)
Ltac alike_step :=
  first
    [ assumption
    | apply alike_ret
    | apply alike_or_continue
    | apply alike_try_except
    | apply alike_bind; [|intros ?]
    | apply alike_for_each; intros ? ? ?
    | apply alike_emit
    | apply alike_exists
    | apply alike_open_read_env
    | apply alike_mkdir_data
    | apply alike_import
    | apply alike_getattr
    | match goal with
      | |- alike (if ?b then _ else _) => destruct b
      | |- alike (match ?l with [] => _ | _ :: _ => _ end) => destruct l
      | |- alike (let _ := _ in _) => cbv zeta
      end ].

Ltac alike_all := unfold print; repeat alike_step.

Lemma main_body_alike : alike main_body.
Proof.
  unfold main_body, run_checks, summarize, checks. cbn [snd fst].
  unfold check_env_file, check_required_files, check_commands_folder,
    check_data_folder, check_dependencies.
  alike_all; listed.
Qed.

Lemma main_alike : alike main.
Proof.
  unfold main. apply alike_bind; [apply main_body_alike|].
  intros r. apply alike_ret.
Qed.

(** X8. In two worlds with the same [.env], the same answers of [exists]
    on the watched paths, the same writability and the same outcome of the
    three imports, [main] ends the same way and performs the same events:
    the whole report is the same, line by line. *)
Theorem main_same_inputs_same_report (w1 w2 : world) :
  same_inputs w1 w2 ->
  result_of (main w1) = result_of (main w2) /\
  events_of (main w1) = events_of (main w2).
Proof.
  intros H. destruct (main_alike w1 w2 H) as (Hr & He & _). now split.
Qed.

Lemma path_exists_head (w1 w2 : world) (c : string) (p : path) :
  cwd w1 !! c = cwd w2 !! c ->
  path_exists w1 (c :: p) = path_exists w2 (c :: p).
Proof.
  intros E. unfold path_exists, lookup_path. cbn [resolve]. now rewrite E.
Qed.

Lemma same_inputs_except (w : world) (es : gmap string node) (name : string) :
  ~ In name watched_names ->
  (forall k, k <> name -> es !! k = cwd w !! k) ->
  same_inputs w (set_cwd es w).
Proof.
  intros Hn Hes.
  assert (forall k, In k watched_names -> cwd w !! k = es !! k) as Hk.
  { intros k Hk. symmetry. apply Hes. intros ->. exact (Hn Hk). }
  repeat split.
  - apply Hk. listed.
  - intros p Hp.
    unfold watched_paths, required_files, required_commands, command_path,
      path_div, Path in Hp.
    cbn [map app In] in Hp.
    repeat (destruct Hp as [<-|Hp];
            [apply path_exists_head; apply Hk; listed|]).
    destruct Hp.
Qed.

Lemma main_same_inputs_same_report_witness :
  result_of (main (set_cwd (<["notes.txt" := File "x"]> (cwd ready_world))
                           ready_world))
  = result_of (main ready_world) /\
  events_of (main (set_cwd (<["notes.txt" := File "x"]> (cwd ready_world))
                           ready_world))
  = events_of (main ready_world).
Proof.
  apply main_same_inputs_same_report.
  apply same_inputs_except with (name := "notes.txt").
  - vm_compute. intros H.
    repeat (destruct H as [H|H]; [discriminate H|]). exact H.
  - intros k Hk. cbn [cwd set_cwd]. now rewrite lookup_insert_ne.
Defined.

(** ** Each check reads its own inputs *)

Lemma exists_loop_same (mk : string -> path)
    (missing_line found_line : string -> string)
    (w1 w2 : world) (files : list string) :
  (forall f, In f files -> path_exists w1 (mk f) = path_exists w2 (mk f)) ->
  forallb (fun f => path_exists w1 (mk f)) files
  = forallb (fun f => path_exists w2 (mk f)) files /\
  flat_map (exists_trace mk missing_line found_line w1) files
  = flat_map (exists_trace mk missing_line found_line w2) files.
Proof.
  induction files as [|f files IH]; intros H; [now split|].
  destruct IH as [IH1 IH2]; [intros g Hg; apply H; now right|].
  cbn [forallb flat_map]. unfold exists_trace at 1 3.
  rewrite (H f (or_introl eq_refl)), IH1, IH2. now split.
Qed.

(** X10. Each check depends on its own inputs only: [check_env_file] on the
    entry [.env], [check_required_files] on the existence of the three
    files, [check_commands_folder] on the entry [commands],
    [check_data_folder] on the existence of [data] and the writability,
    [check_dependencies] on the outcome of the three imports. Two worlds
    that agree there give the same result and the same events of the
    check, however they differ elsewhere. *)
Theorem checks_read_their_own_inputs (w1 w2 : world) :
  (cwd w1 !! ".env" = cwd w2 !! ".env" ->
   result_of (check_env_file w1) = result_of (check_env_file w2) /\
   events_of (check_env_file w1) = events_of (check_env_file w2)) /\
  ((forall f, In f required_files ->
              path_exists w1 (Path f) = path_exists w2 (Path f)) ->
   result_of (check_required_files w1) = result_of (check_required_files w2) /\
   events_of (check_required_files w1) = events_of (check_required_files w2)) /\
  (cwd w1 !! "commands" = cwd w2 !! "commands" ->
   result_of (check_commands_folder w1) = result_of (check_commands_folder w2) /\
   events_of (check_commands_folder w1) = events_of (check_commands_folder w2)) /\
  ((has_data w1 <-> has_data w2) -> writable w1 = writable w2 ->
   result_of (check_data_folder w1) = result_of (check_data_folder w2) /\
   events_of (check_data_folder w1) = events_of (check_data_folder w2)) /\
  ((forall name, In name libraries ->
                 import_result w1 name = import_result w2 name) ->
   result_of (check_dependencies w1) = result_of (check_dependencies w2) /\
   events_of (check_dependencies w1) = events_of (check_dependencies w2)).
Proof.
  split; [|split; [|split; [|split]]].
  - intros E. rewrite !check_env_file_run, E.
    destruct (cwd w2 !! ".env") as [[content|es]|]; try (now split).
    destruct (collect_missing required_vars content); now split.
  - intros H. rewrite !check_required_files_run.
    destruct (exists_loop_same Path (fun f => "   ❌ Missing: " +:+ f)
                (fun f => "   ✅ Found: " +:+ f) w1 w2 required_files H)
      as [E1 E2].
    unfold result_of, events_of. cbn [fst snd]. now rewrite E1, E2.
  - intros E. rewrite !check_commands_folder_run, E.
    destruct (cwd w2 !! "commands") as [n|] eqn:E2; [|now split].
    destruct (exists_loop_same command_path
                (fun f => "   ❌ Missing: commands/" +:+ f)
                (fun f => "   ✅ Found: commands/" +:+ f)
                w1 w2 required_commands) as [E1 E3].
    { intros f _. unfold command_path, path_div, Path. cbn [app].
      apply path_exists_head. congruence. }
    unfold result_of, events_of. cbn [fst snd]. now rewrite E1, E3.
  - intros Hd Hw. rewrite !check_data_folder_run, Hw. unfold has_data in Hd.
    destruct (cwd w1 !! "data") as [n1|], (cwd w2 !! "data") as [n2|].
    + now split.
    + destruct Hd as [Hd _]. destruct Hd as [n H]; [eauto|discriminate H].
    + destruct Hd as [_ Hd]. destruct Hd as [n H]; [eauto|discriminate H].
    + destruct (writable w2); now split.
  - intros H. rewrite !check_dependencies_run.
    rewrite (H "discord"), (H "dotenv"), (H "aiofiles") by listed.
    repeat match goal with
      | |- context [match ?x with _ => _ end] => destruct x
      | |- context [if ?x then _ else _] => destruct x
      end; now split.
Qed.

(** The commands check is the same in the writable and in the read-only
    empty directory. *)
Lemma checks_read_their_own_inputs_witness :
  result_of (check_commands_folder bare_world)
  = result_of (check_commands_folder read_only_world) /\
  events_of (check_commands_folder bare_world)
  = events_of (check_commands_folder read_only_world).
Proof.
  apply (proj1 (proj2 (proj2
           (checks_read_their_own_inputs bare_world read_only_world)))).
  reflexivity.
Defined.

(** ** One line per file *)

Lemma append_cancel (p a b : string) : p +:+ a = p +:+ b -> a = b.
Proof.
  induction p as [|c p IH]; simpl; intros H; [exact H|].
  injection H as H. now apply IH.
Qed.

Lemma exists_trace_prints (mk : string -> path)
    (missing_line found_line : string -> string)
    (w : world) (files : list string) (line : string) :
  In (Ev_print line) (flat_map (exists_trace mk missing_line found_line w) files)
  <-> exists f, In f files /\
                line = if path_exists w (mk f) then found_line f
                       else missing_line f.
Proof.
  rewrite in_flat_map. unfold exists_trace. split.
  - intros (f & Hf & [H|[H|[]]]); [discriminate H|].
    injection H as <-. eauto.
  - intros (f & Hf & ->). exists f. split; [exact Hf|]. right; left.
    reflexivity.
Qed.

Lemma report_lines (mk : string -> path) (missing found : string)
    (w : world) (files : list string) (f : string) :
  (forall g h, missing +:+ g <> found +:+ h) ->
  In f files ->
  let evs :=
    flat_map (exists_trace mk (fun g => missing +:+ g)
                (fun g => found +:+ g) w) files in
  (In (Ev_print (missing +:+ f)) evs <-> path_exists w (mk f) = false) /\
  (In (Ev_print (found +:+ f)) evs <-> path_exists w (mk f) = true).
Proof.
  intros Hd Hf. cbv zeta. rewrite !exists_trace_prints. split; split.
  - intros (g & Hg & E). destruct (path_exists w (mk g)) eqn:X.
    + destruct (Hd _ _ E).
    + apply append_cancel in E. now subst g.
  - intros X. exists f. now rewrite X.
  - intros (g & Hg & E). destruct (path_exists w (mk g)) eqn:X.
    + apply append_cancel in E. now subst g.
    + symmetry in E. destruct (Hd _ _ E).
  - intros X. exists f. now rewrite X.
Qed.

(** X12. For each required file [check_required_files] prints its
    "Missing" line exactly when the file does not exist and its "Found"
    line exactly when it does; and so does [check_commands_folder] for each
    module file when [commands] exists, while without [commands] it prints
    neither line for any module. *)
Theorem one_line_per_file (w : world) (f : string) :
  (In f required_files ->
   let lines := printed (events_of (check_required_files w)) in
   (In ("   ❌ Missing: " +:+ f) lines <-> path_exists w (Path f) = false) /\
   (In ("   ✅ Found: " +:+ f) lines <-> path_exists w (Path f) = true)) /\
  (In f required_commands ->
   let lines := printed (events_of (check_commands_folder w)) in
   (is_Some (cwd w !! "commands") ->
    (In ("   ❌ Missing: commands/" +:+ f) lines
     <-> path_exists w (command_path f) = false) /\
    (In ("   ✅ Found: commands/" +:+ f) lines
     <-> path_exists w (command_path f) = true)) /\
   (cwd w !! "commands" = None ->
    ~ In ("   ❌ Missing: commands/" +:+ f) lines /\
    ~ In ("   ✅ Found: commands/" +:+ f) lines)).
Proof.
  split.
  - intros Hf. cbv zeta. rewrite !In_printed, check_required_files_run.
    unfold events_of. cbn [snd In].
    destruct (report_lines Path "   ❌ Missing: " "   ✅ Found: "
                w required_files f) as [Hm Hp]; [|exact Hf|].
    { intros g h H. vm_compute in H. discriminate H. }
    cbv zeta in Hm, Hp. rewrite <- Hm, <- Hp.
    split; (split; [intros [H|H]; [|exact H]|now right]);
      vm_compute in H; discriminate H.
  - intros Hf. cbv zeta. rewrite !In_printed, check_commands_folder_run.
    split.
    + intros [n ->]. unfold events_of. cbn [snd In].
      destruct (report_lines command_path "   ❌ Missing: commands/"
                  "   ✅ Found: commands/" w required_commands f)
        as [Hm Hp]; [|exact Hf|].
      { intros g h H. vm_compute in H. discriminate H. }
      cbv zeta in Hm, Hp. rewrite <- Hm, <- Hp.
      split; (split; [intros [H|[H|H]]; [| |exact H]|now do 2 right]);
        vm_compute in H; discriminate H.
    + intros ->. unfold events_of. cbn [snd In].
      split; intros [H|[H|[H|[]]]]; vm_compute in H; discriminate H.
Qed.

Lemma one_line_per_file_witness :
  In ("   ❌ Missing: " +:+ "bot.py")
     (printed (events_of (check_required_files bare_world))) /\
  In ("   ✅ Found: commands/" +:+ "teams.py")
     (printed (events_of (check_commands_folder ready_world))).
Proof.
  split.
  - apply (proj1 (one_line_per_file bare_world "bot.py")).
    + listed.
    + vm_compute; reflexivity.
  - apply (proj2 (one_line_per_file ready_world "teams.py")).
    + listed.
    + exists (Dir commands_dir). vm_compute; reflexivity.
    + vm_compute; reflexivity.
Defined.

(** ** A regular file in the place of [commands] *)

Lemma command_path_below_file (w : world) (content cmd_file : string) :
  cwd w !! "commands" = Some (File content) ->
  path_exists w (command_path cmd_file) = false.
Proof.
  intros E. unfold path_exists, lookup_path, command_path, path_div, Path.
  cbn [app resolve]. now rewrite E.
Qed.

(** X13. When [commands] exists but is a regular file, the check does not
    report the folder as missing: it goes on to test the six module paths,
    finds none of them, prints the six "Missing" lines and returns false. *)
Theorem commands_as_regular_file (w : world) (content : string) :
  cwd w !! "commands" = Some (File content) ->
  result_of (check_commands_folder w) = Return false /\
  printed (events_of (check_commands_folder w))
  = (nl +:+ "📦 Checking commands folder...")
    :: map (fun f => "   ❌ Missing: commands/" +:+ f) required_commands /\
  length (tested (events_of (check_commands_folder w))) = 7.
Proof.
  intros E. rewrite check_commands_folder_run, E.
  unfold result_of, events_of. cbn [fst snd].
  cbn [forallb flat_map required_commands map app]. unfold exists_trace.
  rewrite !(command_path_below_file w content) by exact E.
  repeat split.
Qed.

Lemma commands_as_regular_file_witness :
  result_of (check_commands_folder
               (World {["commands" := File "x"]} true ∅)) = Return false.
Proof.
  apply (commands_as_regular_file
           (World {["commands" := File "x"]} true ∅) "x").
  vm_compute; reflexivity.
Defined.

(** ** More on the environment file *)

Lemma append_assoc (a b c : string) : (a +:+ b) +:+ c = a +:+ (b +:+ c).
Proof.
  induction a as [|x a IH]; [reflexivity|].
  change (String x ((a +:+ b) +:+ c) = String x (a +:+ b +:+ c)).
  now rewrite IH.
Qed.

Lemma is_substring_embedded (k s pre post : string) :
  is_substring k s -> is_substring k (pre +:+ s +:+ post).
Proof.
  intros (a & b & ->). exists (pre +:+ a), (b +:+ post).
  now rewrite !append_assoc.
Qed.

(** X14. Text added before and after the content of a [.env] that passes
    never makes it fail: the check of the longer file returns true as
    well. *)
Theorem env_check_survives_added_text (w1 w2 : world)
    (content pre post : string) :
  cwd w1 !! ".env" = Some (File content) ->
  cwd w2 !! ".env" = Some (File (pre +:+ content +:+ post)) ->
  result_of (check_env_file w1) = Return true ->
  result_of (check_env_file w2) = Return true.
Proof.
  intros E1 E2 H. apply check_env_file_true.
  apply check_env_file_true in H as (c & Ec & Hc).
  assert (c = content) as -> by congruence.
  exists (pre +:+ content +:+ post). split; [exact E2|].
  intros k Hk. apply is_substring_embedded. now apply Hc.
Qed.

Lemma env_check_survives_added_text_witness :
  result_of (check_env_file
               (World {[".env" := File ("# my bot" +:+ env_text +:+ nl)]}
                      true ∅)) = Return true.
Proof.
  apply (env_check_survives_added_text ready_world _ env_text "# my bot" nl).
  - vm_compute; reflexivity.
  - vm_compute; reflexivity.
  - vm_compute; reflexivity.
Defined.

(** X15. The missing-variables line names the absent keys in the order
    DISCORD_TOKEN, OWNER_ID, PREFIX, separated by a comma and a space,
    whatever the order in which the present ones occur in the file. *)
Theorem missing_variables_in_order (w : world) (content : string) :
  cwd w !! ".env" = Some (File content) ->
  result_of (check_env_file w) = Return false ->
  last (printed (events_of (check_env_file w)))
  = Some ("   ❌ Missing variables: " +:+
          join ", "
            ((if contains "DISCORD_TOKEN" content then []
              else ["DISCORD_TOKEN"])
             ++ (if contains "OWNER_ID" content then [] else ["OWNER_ID"])
             ++ (if contains "PREFIX" content then [] else ["PREFIX"]))).
Proof.
  intros E. rewrite check_env_file_run, E, collect_missing_filter.
  unfold required_vars. cbn [List.filter].
  destruct (contains "DISCORD_TOKEN" content),
           (contains "OWNER_ID" content), (contains "PREFIX" content);
    cbn [negb app]; intros H; try discriminate H; reflexivity.
Qed.

Lemma missing_variables_in_order_witness :
  last (printed (events_of (check_env_file token_only_world)))
  = Some "   ❌ Missing variables: OWNER_ID, PREFIX".
Proof.
  rewrite (missing_variables_in_order token_only_world "DISCORD_TOKEN=abc").
  - vm_compute; reflexivity.
  - vm_compute; reflexivity.
  - vm_compute; reflexivity.
Defined.

(** ** The report of the dependency check *)

(** Computes the last line of a run whose events are known. *)
Ltac last_line :=
  unfold result_of;
  repeat match goal with
    | |- context [last (printed (events_of ?r))] =>
        let x := eval vm_compute in (last (printed (events_of r))) in
        change (last (printed (events_of r))) with x
    end;
  cbn [fst].

(** X17. When [check_dependencies] returns false, the last line it printed
    is the "not installed" line of the library whose import raised
    ImportError: the one of discord exactly when that import raised it, the
    one of dotenv exactly when the discord block completed and the import
    of dotenv raised it, the one of aiofiles exactly when the two blocks
    before completed and the import of aiofiles raised it. *)
Theorem dependency_failure_names_the_library (w : world) :
  let lines := printed (events_of (check_dependencies w)) in
  (last lines = Some "   ❌ discord.py not installed"
   <-> import_raises_ImportError w "discord") /\
  (last lines = Some "   ❌ python-dotenv not installed"
   <-> discord_ok w /\ import_raises_ImportError w "dotenv") /\
  (last lines = Some "   ❌ aiofiles not installed"
   <-> discord_ok w /\ import_ok w "dotenv" /\
       import_raises_ImportError w "aiofiles") /\
  (result_of (check_dependencies w) = Return false
   <-> last lines = Some "   ❌ discord.py not installed" \/
       last lines = Some "   ❌ python-dotenv not installed" \/
       last lines = Some "   ❌ aiofiles not installed").
Proof.
  cbv zeta. rewrite check_dependencies_run.
  unfold discord_ok, import_ok, import_raises_ImportError.
  destruct (import_result w "discord") as [[v|]|e1] eqn:E1.
  - destruct (import_result w "dotenv") as [v'|e2] eqn:E2.
    + destruct (import_result w "aiofiles") as [v''|e3] eqn:E3.
      * last_line. settle.
      * destruct (is_ImportError e3) eqn:Ee; last_line; settle.
    + destruct (is_ImportError e2) eqn:Ee; last_line; settle.
  - last_line. settle.
  - destruct (is_ImportError e1) eqn:Ee; last_line; settle.
Qed.


(** ** Where a run that breaks off has got to *)

Lemma attempted_nil (evs : list event) :
  Forall no_import evs -> attempted evs = [].
Proof.
  induction 1 as [|ev evs Hev _ IH]; [reflexivity|].
  unfold attempted in *. cbn [flat_map]. rewrite IH.
  destruct ev; try reflexivity. destruct Hev.
Qed.

Lemma run_checks_from_data (w : world) (b1 : bool) :
  result_of (check_env_file w) = Return b1 ->
  world_of (run_checks checks w) = world_of (check_data_folder w) /\
  (forall e,
      result_of (check_data_folder w) = Raise e ->
      events_of (run_checks checks w)
      = events_of (check_env_file w) ++ events_of (check_required_files w)
        ++ events_of (check_commands_folder w)
        ++ events_of (check_data_folder w)).
Proof.
  intros H1. rewrite run_checks_run.
  pose proof (check_env_file_world w) as W1.
  destruct (check_env_file w) as [[r1 w1] e1].
  unfold result_of, world_of in H1, W1. cbn [fst snd] in H1, W1. subst r1 w1.
  rewrite check_required_files_run.
  pose proof (check_commands_folder_world w) as W3.
  assert (exists b3, result_of (check_commands_folder w) = Return b3)
    as [b3 H3].
  { rewrite check_commands_folder_run.
    destruct (cwd w !! "commands"); eexists; reflexivity. }
  destruct (check_commands_folder w) as [[r3 w3] e3].
  unfold result_of, world_of in H3, W3. cbn [fst snd] in H3, W3. subst r3 w3.
  destruct (check_data_folder w) as [[[b4|e4] w4] e4'].
  - pose proof (check_dependencies_world w4) as W5.
    destruct (check_dependencies w4) as [[[b5|e5] w5] e5'];
      unfold world_of in W5; cbn [fst snd] in W5; subst w5;
      (split; [reflexivity|]); intros e H; discriminate H.
  - split; [reflexivity|]. intros e _. reflexivity.
Qed.

Lemma main_body_events (w : world) :
  exists tail,
    events_of (main_body w) = banner ++ events_of (run_checks checks w) ++ tail
    /\ Forall no_import tail.
Proof.
  rewrite main_body_run.
  destruct (run_checks checks w) as [[[rs|e] w'] evs].
  - exists (summary_events rs (forallb snd rs)). split; [reflexivity|].
    unfold summary_events. rewrite !Forall_app. repeat split.
    + repeat constructor.
    + apply Forall_map. now apply Forall_true.
    + repeat constructor.
    + destruct (forallb snd rs); repeat constructor.
    + repeat constructor.
  - exists []. split; [|constructor].
    unfold events_of. cbn [snd]. now rewrite app_nil_r.
Qed.

Lemma checks_before_imports (w : world) :
  Forall no_import (events_of (check_env_file w)) /\
  Forall no_import (events_of (check_required_files w)) /\
  Forall no_import (events_of (check_commands_folder w)) /\
  Forall no_import (events_of (check_data_folder w)).
Proof.
  assert (keeps anywhere no_import check_env_file) as K1
    by (unfold check_env_file; keeps_all; exact I).
  assert (keeps anywhere no_import check_required_files) as K2
    by (unfold check_required_files; keeps_all; exact I).
  assert (keeps anywhere no_import check_commands_folder) as K3
    by (unfold check_commands_folder; keeps_all; exact I).
  assert (keeps anywhere no_import check_data_folder) as K4
    by (unfold check_data_folder; keeps_all; exact I).
  repeat split; [apply (K1 w I)|apply (K2 w I)|apply (K3 w I)|apply (K4 w I)].
Qed.

(** * More theorems at concrete worlds *)

Lemma main_announces_pass_iff_ready_witness :
  In passed_line (printed (events_of (main ready_world))).
Proof.
  apply (main_announces_pass_iff_ready ready_world).
  split; [|split; [|split; [|split]]].
  - exists env_text. split; [vm_compute; reflexivity|].
    intros k Hk. apply contains_spec.
    vm_compute in Hk.
    repeat (destruct Hk as [<-|Hk]; [vm_compute; reflexivity|]).
    destruct Hk.
  - intros f Hf. vm_compute in Hf.
    repeat (destruct Hf as [<-|Hf]; [vm_compute; reflexivity|]).
    destruct Hf.
  - intros f Hf. vm_compute in Hf.
    repeat (destruct Hf as [<-|Hf]; [vm_compute; reflexivity|]).
    destruct Hf.
  - right. reflexivity.
  - repeat split; eexists; vm_compute; reflexivity.
Defined.

Lemma dependency_failure_names_the_library_witness :
  last (printed (events_of (check_dependencies bare_world)))
  = Some "   ❌ discord.py not installed".
Proof.
  apply (proj1 (dependency_failure_names_the_library bare_world)).
  exists ModuleNotFoundError. split; vm_compute; reflexivity.
Defined.

(** * Runs in an environment that refuses operations *)

(** ** A rule per construct for where a run ends *)

Section Faithful.
Variable refuses : event -> option exception.
Variable C : event -> exception -> Prop.











End Faithful.







(** ** Each check ends as its last operation did *)







(** ** Which failures leave a check as an exception, in any environment *)



(** ** Runs in which nothing is refused *)

Section Same.
Variable refuses : event -> option exception.

Lemma same_refl {A} (m : M A) : same m m.
Proof. intros w. reflexivity. Qed.

Lemma same_attempt {A} (ev : event) (op : M A) :
  refuses ev = None -> same (Faults.attempt refuses ev op) op.
Proof. intros H w. unfold Faults.attempt. now rewrite H. Qed.

Lemma same_bind {A B} (m1 m2 : M A) (k1 k2 : A -> M B) :
  same m1 m2 -> (forall a, same (k1 a) (k2 a)) -> same (bind m1 k1) (bind m2 k2).
Proof.
  intros Hm Hk w. unfold bind. rewrite Hm.
  destruct (m2 w) as [[[a|e] w1] evs1]; [|reflexivity]. now rewrite Hk.
Qed.

Lemma same_for_each {A B} (xs : list A) (body1 body2 : B -> A -> M B)
    (acc : B) :
  (forall acc x, same (body1 acc x) (body2 acc x)) ->
  same (for_each xs acc body1) (for_each xs acc body2).
Proof.
  intros H. revert acc. induction xs as [|x xs IH]; intros acc; cbn [for_each].
  - apply same_refl.
  - apply same_bind; [apply H|]. intros acc'. apply IH.
Qed.

Lemma same_try_except {A} (body1 body2 handler1 handler2 : M A) :
  same body1 body2 -> same handler1 handler2 ->
  same (try_except_ImportError body1 handler1)
       (try_except_ImportError body2 handler2).
Proof.
  intros Hb Hh w. unfold try_except_ImportError. rewrite Hb.
  destruct (body2 w) as [[[a|e] w1] evs1]; [reflexivity|].
  destruct (is_ImportError e); [|reflexivity]. now rewrite Hh.
Qed.

Lemma same_or_continue {A} (block1 block2 : M (option A)) (rest1 rest2 : M A) :
  same block1 block2 -> same rest1 rest2 ->
  same (block1 ;;; rest1) (block2 ;;; rest2).
Proof.
  intros Hb Hr. unfold or_continue. apply same_bind; [exact Hb|].
  intros [a|]; [apply same_refl|exact Hr].
Qed.

Lemma same_open_read (p : path) :
  refuses (Ev_open p) = None -> refuses (Ev_read p) = None ->
  same (Faults.open_read refuses p) (open_read p).
Proof.
  intros Ho Hr w. unfold Faults.open_read, Faults.attempt, open_read.
  rewrite Ho, Hr. reflexivity.
Qed.

Lemma same_run_checks (cs1 cs2 : list (string * M bool)) :
  Forall2 (fun c1 c2 => fst c1 = fst c2 /\ same (snd c1) (snd c2)) cs1 cs2 ->
  forall results,
    same (for_each cs1 results (fun results c =>
            result <- snd c ;; ret (results ++ [(fst c, result)])))
         (for_each cs2 results (fun results c =>
            result <- snd c ;; ret (results ++ [(fst c, result)]))).
Proof.
  induction 1 as [|c1 c2 cs1 cs2 [Hn Hc] _ IH]; intros results;
    cbn [for_each].
  - apply same_refl.
  - apply same_bind.
    + apply same_bind; [exact Hc|]. intros b. rewrite Hn. apply same_refl.
    + intros results'. apply IH.
Qed.

End Same.

(** Replaces the operations of [Faults] that are not refused by the
    operations themselves, construct by construct. *)
Ltac same_step :=
  first
    [ assumption
    | apply same_refl
    | apply same_attempt
    | apply same_open_read
    | apply same_or_continue
    | apply same_try_except
    | apply same_bind; [|intros ?]
    | apply same_for_each; intros ? ?
    | match goal with
      | |- same (if ?b then _ else _) (if ?b then _ else _) => destruct b
      | |- same (match ?l with [] => _ | _ :: _ => _ end) _ => destruct l
      end ].

Ltac same_all :=
  unfold Faults.print, Faults.exists_, Faults.mkdir, Faults.import_,
    Faults.getattr_version;
  repeat same_step.

Section Unrefused.
Variable refuses : event -> option exception.
Hypothesis Hprint : Faults.stdout_accepts refuses.

Lemma check_required_files_same :
  Faults.tests_answer refuses ->
  same (Faults.check_required_files refuses) check_required_files.
Proof.
  intros Ht. unfold Faults.check_required_files, check_required_files.
  same_all; auto.
Qed.

Lemma check_commands_folder_same :
  Faults.tests_answer refuses ->
  same (Faults.check_commands_folder refuses) check_commands_folder.
Proof.
  intros Ht. unfold Faults.check_commands_folder, check_commands_folder.
  same_all; auto.
Qed.

Lemma check_dependencies_same :
  Faults.imports_proceed refuses ->
  same (Faults.check_dependencies refuses) check_dependencies.
Proof.
  intros [Hi Hg]. unfold Faults.check_dependencies, check_dependencies.
  same_all; auto.
Qed.

Lemma check_env_file_same :
  Faults.tests_answer refuses ->
  refuses (Ev_open (Path ".env")) = None ->
  refuses (Ev_read (Path ".env")) = None ->
  same (Faults.check_env_file refuses) check_env_file.
Proof.
  intros Ht Ho Hr. unfold Faults.check_env_file, check_env_file.
  same_all; auto.
Qed.

Lemma check_data_folder_same :
  Faults.tests_answer refuses ->
  refuses (Ev_mkdir (Path "data")) = None ->
  same (Faults.check_data_folder refuses) check_data_folder.
Proof.
  intros Ht Hm. unfold Faults.check_data_folder, check_data_folder.
  same_all; auto.
Qed.

Lemma summarize_same (results : list (string * bool)) :
  same (Faults.summarize refuses results) (summarize results).
Proof. unfold Faults.summarize, summarize. same_all; auto. Qed.

End Unrefused.

Lemma no_refusal_stdout (refuses : event -> option exception) :
  Faults.no_refusal refuses -> Faults.stdout_accepts refuses.
Proof. intros H line. apply H. Qed.

Lemma no_refusal_tests (refuses : event -> option exception) :
  Faults.no_refusal refuses -> Faults.tests_answer refuses.
Proof. intros H p. apply H. Qed.

Lemma no_refusal_imports (refuses : event -> option exception) :
  Faults.no_refusal refuses -> Faults.imports_proceed refuses.
Proof. intros H. split; intros; apply H. Qed.

Lemma main_body_same (refuses : event -> option exception) :
  Faults.no_refusal refuses -> same (Faults.main_body refuses) main_body.
Proof.
  intros H.
  pose proof (no_refusal_stdout refuses H) as Hp.
  pose proof (no_refusal_tests refuses H) as Ht.
  pose proof (no_refusal_imports refuses H) as Hi.
  unfold Faults.main_body, main_body.
  assert (same (run_checks (Faults.checks refuses)) (run_checks checks)) as Hc.
  { unfold run_checks. apply same_run_checks.
    unfold Faults.checks, checks.
    repeat (constructor; [split; [reflexivity|]|]); cbn [snd].
    - apply check_env_file_same; auto.
    - apply check_required_files_same; auto.
    - apply check_commands_folder_same; auto.
    - apply check_data_folder_same; auto.
    - apply check_dependencies_same; auto.
    - constructor. }
  pose proof (summarize_same refuses Hp) as Hs.
  same_all; auto.
Qed.

Lemma main_same (refuses : event -> option exception) :
  Faults.no_refusal refuses -> same (Faults.main refuses) main.
Proof.
  intros H. unfold Faults.main, main.
  apply same_bind; [now apply main_body_same|]. intros r. apply same_refl.
Qed.


(** ** Runs that return *)

Section Agrees.
Variable refuses : event -> option exception.

Lemma agrees_refl {A} (m : M A) : agrees m m.
Proof. intros w a _. reflexivity. Qed.

Lemma agrees_attempt {A} (ev : event) (op : M A) :
  agrees (Faults.attempt refuses ev op) op.
Proof.
  intros w a. unfold Faults.attempt.
  destruct (refuses ev); [discriminate|reflexivity].
Qed.

Lemma agrees_bind {A B} (m1 m2 : M A) (k1 k2 : A -> M B) :
  agrees m1 m2 -> (forall a, agrees (k1 a) (k2 a)) ->
  agrees (bind m1 k1) (bind m2 k2).
Proof.
  intros Hm Hk w b. unfold bind.
  destruct (m1 w) as [[[a|e] w1] evs1] eqn:E1; [|discriminate].
  rewrite <- (Hm w a), E1 by now rewrite E1.
  destruct (k1 a w1) as [[r w2] evs2] eqn:E2.
  unfold result_of. cbn [fst]. intros ->.
  rewrite <- (Hk a w1 b), E2 by now rewrite E2. reflexivity.
Qed.

Lemma agrees_for_each {A B} (xs : list A) (body1 body2 : B -> A -> M B)
    (acc : B) :
  (forall acc x, agrees (body1 acc x) (body2 acc x)) ->
  agrees (for_each xs acc body1) (for_each xs acc body2).
Proof.
  intros H. revert acc. induction xs as [|x xs IH]; intros acc; cbn [for_each].
  - apply agrees_refl.
  - apply agrees_bind; [apply H|]. intros acc'. apply IH.
Qed.

End Agrees.

Ltac agrees_step :=
  first
    [ apply agrees_refl
    | apply agrees_attempt
    | apply agrees_bind; [|intros ?]
    | apply agrees_for_each; intros ? ?
    | match goal with
      | |- agrees (if ?b then _ else _) (if ?b then _ else _) => destruct b
      end ].

Ltac agrees_all :=
  unfold Faults.print, Faults.exists_; repeat agrees_step.

Lemma check_required_files_agrees (refuses : event -> option exception) :
  agrees (Faults.check_required_files refuses) check_required_files.
Proof.
  unfold Faults.check_required_files, check_required_files. agrees_all.
Qed.

Lemma summarize_agrees (refuses : event -> option exception)
    (results : list (string * bool)) :
  agrees (Faults.summarize refuses results) (summarize results).
Proof. unfold Faults.summarize, summarize. agrees_all. Qed.

(** ** The required files *)

(** X11. Whatever the environment refuses: when [check_required_files]
    returns, it has tested bot.py, data_manager.py and requirements.txt in
    this order, each whatever the tests before it gave, it returns the
    conjunction of the three answers, it has opened and created nothing and
    has left the world as it is. It returns whenever stdout accepts every
    line and every existence test answers. *)
Theorem check_required_files_scans_all
    (refuses : event -> option exception) (w : world) :
  (forall b,
      result_of (Faults.check_required_files refuses w) = Return b ->
      b = path_exists w ["bot.py"] && path_exists w ["data_manager.py"]
          && path_exists w ["requirements.txt"] /\
      tested (events_of (Faults.check_required_files refuses w))
      = [["bot.py"]; ["data_manager.py"]; ["requirements.txt"]] /\
      opened (events_of (Faults.check_required_files refuses w)) = [] /\
      created (events_of (Faults.check_required_files refuses w)) = [] /\
      world_of (Faults.check_required_files refuses w) = w) /\
  (Faults.stdout_accepts refuses -> Faults.tests_answer refuses ->
   exists b, result_of (Faults.check_required_files refuses w) = Return b).
Proof.
  split.
  - intros b. intros H.
    pose proof (check_required_files_agrees refuses w b H) as E.
    rewrite E in *. clear E. revert H. rewrite check_required_files_run.
    unfold result_of, events_of, world_of. cbn [fst snd].
    intros [= <-]. split; [|repeat split].
    cbn [forallb required_files]. unfold Path.
    now rewrite andb_true_r, andb_assoc.
  - intros Hp Ht. rewrite (check_required_files_same refuses Hp Ht w).
    rewrite check_required_files_run. eexists. reflexivity.
Qed.

Lemma check_required_files_scans_all_witness :
  exists b,
    result_of (Faults.check_required_files nothing_refused ready_world)
    = Return b.
Proof.
  apply (proj2 (check_required_files_scans_all nothing_refused ready_world)).
  - intros line. reflexivity.
  - intros p. reflexivity.
Defined.

(** ** The summary loop *)

(** X16. Over any list of results and whatever the environment refuses:
    when the summary loop returns, it has printed one status line per
    result, in the order of the list, PASS for true and FAIL for false, it
    has left the world as it is and it gives true exactly when no result is
    false. It returns whenever stdout accepts every line; over no result at
    all it prints nothing and gives true. *)
Theorem summarize_conjunction (refuses : event -> option exception)
    (results : list (string * bool)) (w : world) :
  (forall all_passed,
      result_of (Faults.summarize refuses results w) = Return all_passed ->
      Faults.summarize refuses results w
      = (Return all_passed, w, map status_line results) /\
      (all_passed = true
       <-> forall name b, In (name, b) results -> b = true)) /\
  (Faults.stdout_accepts refuses ->
   exists all_passed,
     result_of (Faults.summarize refuses results w) = Return all_passed) /\
  Faults.summarize refuses [] w = (Return true, w, []).
Proof.
  split; [|split].
  - intros all_passed H.
    pose proof (summarize_agrees refuses results w all_passed H) as E.
    rewrite E in *. clear E. revert H. unfold summarize. rewrite summarize_from.
    unfold result_of. cbn [fst andb]. intros [= <-].
    split; [reflexivity|]. rewrite forallb_forall. split.
    + intros H name b Hin. exact (H (name, b) Hin).
    + intros H [name b] Hin. exact (H name b Hin).
  - intros Hp. rewrite (summarize_same refuses Hp results w).
    unfold summarize. rewrite summarize_from. eexists. reflexivity.
  - reflexivity.
Qed.

Lemma summarize_conjunction_witness :
  exists all_passed,
    result_of (Faults.summarize nothing_refused
                 [("Environment File", true); ("Required Files", false)]
                 bare_world)
    = Return all_passed.
Proof.
  apply (proj1 (proj2 (summarize_conjunction nothing_refused
                         [("Environment File", true); ("Required Files", false)]
                         bare_world))).
  intros line. reflexivity.
Defined.

(** ** When each check raises, given a stdout that prints *)

Section Printing.
Variable refuses : event -> option exception.
Hypothesis Hprint : Faults.stdout_accepts refuses.
Hypothesis Htests : Faults.tests_answer refuses.

Lemma check_env_file_raises_when (w : world) (e : exception) :
  result_of (Faults.check_env_file refuses w) = Raise e
  <-> is_Some (cwd w !! ".env") /\
      (Faults.raised refuses w (Ev_open (Path ".env")) = Some e \/
       Faults.raised refuses w (Ev_open (Path ".env")) = None /\
       refuses (Ev_read (Path ".env")) = Some e).
Proof.
  unfold Faults.check_env_file, Faults.raised.
  cbv beta iota zeta delta
    [Faults.print Faults.exists_ Faults.open_read Faults.attempt bind print
     emit exists_ ret path_exists].
  rewrite Hprint, Htests. cbv beta iota zeta. rewrite !lookup_path_top.
  destruct (cwd w !! ".env") as [[content|es]|] eqn:E;
    cbv beta iota zeta delta [negb]; rewrite ?Hprint; cbv beta iota zeta.
  - destruct (refuses (Ev_open (Path ".env"))) as [eo|] eqn:Ro;
      cbv beta iota zeta.
    { unfold result_of. cbn [fst]. split.
      - intros [= <-]. split; [eauto|]. now left.
      - intros [_ [[= <-]|[H _]]]; [reflexivity|discriminate H]. }
    rewrite lookup_path_top, E.
    destruct (refuses (Ev_read (Path ".env"))) as [er|] eqn:Rr;
      cbv beta iota zeta.
    { unfold result_of. cbn [fst]. split.
      - intros [= <-]. split; [eauto|]. now right.
      - intros [_ [H|[_ [= <-]]]]; [discriminate H|reflexivity]. }
    destruct (collect_missing required_vars content);
      rewrite ?Hprint; unfold result_of; cbn [fst];
      (split; [discriminate|]); intros [_ [H|[_ H]]]; discriminate H.
  - destruct (refuses (Ev_open (Path ".env"))) as [eo|] eqn:Ro;
      cbv beta iota zeta.
    { unfold result_of. cbn [fst]. split.
      - intros [= <-]. split; [eauto|]. now left.
      - intros [_ [[= <-]|[H _]]]; [reflexivity|discriminate H]. }
    rewrite lookup_path_top, E. unfold result_of. cbn [fst]. split.
    + intros [= <-]. split; [eauto|]. now left.
    + intros [_ [[= <-]|[H _]]]; [reflexivity|discriminate H].
  - rewrite ?Hprint. unfold result_of. cbn [fst].
    split; [discriminate|]. intros [[n H] _]. discriminate H.
Qed.

Lemma check_data_folder_raises_when (w : world) (e : exception) :
  result_of (Faults.check_data_folder refuses w) = Raise e
  <-> cwd w !! "data" = None /\
      Faults.raised refuses w (Ev_mkdir (Path "data")) = Some e.
Proof.
  unfold Faults.check_data_folder, Faults.raised.
  cbv beta iota zeta delta
    [Faults.print Faults.exists_ Faults.mkdir Faults.attempt bind print
     emit exists_ mkdir ret path_exists].
  rewrite Hprint, Htests. cbv beta iota zeta. rewrite !lookup_path_top.
  destruct (cwd w !! "data") as [n|] eqn:E;
    cbv beta iota zeta delta [negb]; rewrite ?Hprint; cbv beta iota zeta.
  - unfold result_of. cbn [fst]. split; [discriminate|].
    intros [H _]. discriminate H.
  - destruct (refuses (Ev_mkdir (Path "data"))) as [em|] eqn:Rm;
      cbv beta iota zeta.
    { unfold result_of. cbn [fst]. split.
      - intros [= <-]. now split.
      - intros [_ [= <-]]. reflexivity. }
    unfold Path. cbn [mkdir_in]. rewrite E.
    destruct (writable w); cbv beta iota zeta; rewrite ?Hprint;
      unfold result_of; cbn [fst]; split;
      try discriminate; try (intros [_ H]; discriminate H).
    + intros [= <-]. now split.
    + intros [_ [= <-]]. reflexivity.
Qed.

End Printing.

(** X4. Provided stdout accepts every line, every existence test answers
    and the imports are not interfered with, each check raises in one kind
    of state: [check_env_file] exactly when [.env] exists and its opening or
    its reading raises (a directory, a file that is denied or does not
    decode), with the exception of that operation; [check_data_folder]
    exactly when [data] is missing and its creation raises;
    [check_dependencies] exactly when the first import that raises does not
    raise an ImportError, or when discord loads without a version
    (AttributeError). Under the same proviso [check_required_files] and
    [check_commands_folder] raise nothing. *)
Theorem checks_raise_exactly_when (refuses : event -> option exception)
    (w : world) (e : exception) :
  Faults.stdout_accepts refuses ->
  Faults.tests_answer refuses ->
  Faults.imports_proceed refuses ->
  (result_of (Faults.check_env_file refuses w) = Raise e
   <-> is_Some (cwd w !! ".env") /\
       (Faults.raised refuses w (Ev_open (Path ".env")) = Some e \/
        Faults.raised refuses w (Ev_open (Path ".env")) = None /\
        refuses (Ev_read (Path ".env")) = Some e)) /\
  (result_of (Faults.check_data_folder refuses w) = Raise e
   <-> cwd w !! "data" = None /\
       Faults.raised refuses w (Ev_mkdir (Path "data")) = Some e) /\
  (result_of (Faults.check_dependencies refuses w) = Raise e
   <-> dependencies_raise w e) /\
  result_of (Faults.check_required_files refuses w) <> Raise e /\
  result_of (Faults.check_commands_folder refuses w) <> Raise e.
Proof.
  intros Hp Ht Hi.
  split; [now apply check_env_file_raises_when|].
  split; [now apply check_data_folder_raises_when|].
  split; [|split].
  - rewrite (check_dependencies_same refuses Hp Hi w).
    apply check_dependencies_raises.
  - rewrite (check_required_files_same refuses Hp Ht w),
      check_required_files_run. discriminate.
  - rewrite (check_commands_folder_same refuses Hp Ht w),
      check_commands_folder_run.
    destruct (cwd w !! "commands"); discriminate.
Qed.

Lemma checks_raise_exactly_when_witness :
  result_of (Faults.check_env_file env_undecodable ready_world)
  = Raise (OtherException "UnicodeDecodeError") /\
  result_of (Faults.check_env_file nothing_refused env_is_directory)
  = Raise IsADirectoryError /\
  result_of (Faults.check_data_folder nothing_refused read_only_world)
  = Raise PermissionError.
Proof.
  split; [|split].
  - apply (proj1 (checks_raise_exactly_when env_undecodable ready_world
                    (OtherException "UnicodeDecodeError")
                    (fun _ => eq_refl) (fun _ => eq_refl)
                    (conj (fun _ => eq_refl) (fun _ _ => eq_refl)))).
    split; [vm_compute; eauto|]. right. split; vm_compute; reflexivity.
  - apply (proj1 (checks_raise_exactly_when nothing_refused env_is_directory
                    IsADirectoryError
                    (fun _ => eq_refl) (fun _ => eq_refl)
                    (conj (fun _ => eq_refl) (fun _ _ => eq_refl)))).
    split; [vm_compute; eauto|]. left. vm_compute; reflexivity.
  - apply (proj1 (proj2 (checks_raise_exactly_when nothing_refused
                           read_only_world PermissionError
                           (fun _ => eq_refl) (fun _ => eq_refl)
                           (conj (fun _ => eq_refl) (fun _ _ => eq_refl))))).
    split; vm_compute; reflexivity.
Defined.

(** ** The run as a whole, when nothing is refused *)



(** X7. Provided the environment refuses no operation of the script:
    [main] prints the summary exactly when no exception ends the run, and
    the line that some checks failed exactly when, besides, the project is
    not ready; a run that an exception ends prints neither verdict. *)
Theorem main_report_by_outcome (refuses : event -> option exception)
    (w : world) :
  Faults.no_refusal refuses ->
  let lines := printed (events_of (Faults.main refuses w)) in
  (In summary_line lines <-> ~ fatal w) /\
  (In failed_line lines <-> ~ fatal w /\ ~ project_ready w) /\
  (fatal w -> ~ In passed_line lines /\ ~ In failed_line lines).
Proof.
  intros H. cbv zeta. rewrite (main_same refuses H w), main_events.
  destruct (main_body_verdict_lines w) as (Hp & Hf & Hs). cbv zeta in *.
  rewrite Hp, Hf, Hs, <- main_body_breaks_off, <- main_body_passes.
  destruct (result_of (main_body w)) as [[rs v]|e].
  - split; [|split].
    + split; [intros _ [e H']; discriminate H'|eauto].
    + split.
      * intros [rs' [= _ ->]]. split; intros [x H']; discriminate H'.
      * intros [_ H']. destruct v; [destruct H'|]; eauto.
    + intros [e H']. discriminate H'.
  - split; [|split].
    + split; [intros [r H']; discriminate H'|intros H'; destruct H'; eauto].
    + split; [intros [r H']; discriminate H'|].
      intros [H' _]. destruct H'. eauto.
    + intros _. split; intros [r H']; discriminate H'.
Qed.

Lemma main_report_by_outcome_witness :
  ~ In passed_line
      (printed (events_of (Faults.main nothing_refused env_is_directory))) /\
  ~ In failed_line
      (printed (events_of (Faults.main nothing_refused env_is_directory))).
Proof.
  apply (proj2 (proj2 (main_report_by_outcome nothing_refused
                         env_is_directory (fun _ => eq_refl)))).
  left. exists ∅. vm_compute; reflexivity.
Defined.

(** X18. Provided the environment refuses no operation of the script, a run
    that breaks off has done nothing of what comes later. When [.env] is a
    directory, [main] stops in the first check: the world is untouched, no
    creation of [data] has been tried and no import attempted. When [data]
    cannot be created, [main] stops with PermissionError before any import.
    In every other world, also when the dependency check then lets an
    exception through, [data] exists when [main] ends. *)
Theorem break_off_points (refuses : event -> option exception) (w : world) :
  Faults.no_refusal refuses ->
  (env_unreadable w ->
   world_of (Faults.main refuses w) = w /\
   created (events_of (Faults.main refuses w)) = [] /\
   attempted (events_of (Faults.main refuses w)) = []) /\
  (~ env_unreadable w -> data_blocked w ->
   result_of (Faults.main refuses w) = Raise PermissionError /\
   world_of (Faults.main refuses w) = w /\
   attempted (events_of (Faults.main refuses w)) = []) /\
  (~ env_unreadable w -> ~ data_blocked w ->
   has_data (world_of (Faults.main refuses w))).
Proof.
  intros Hq. rewrite (main_same refuses Hq w).
  assert (~ env_unreadable w ->
          exists b1, result_of (check_env_file w) = Return b1) as Henv.
  { intros Hn. destruct (result_of (check_env_file w)) as [b1|e] eqn:R;
      [eauto|].
    apply check_env_file_raises in R as [R _]. destruct (Hn R). }
  rewrite main_result, main_world, main_events.
  split; [|split].
  - intros [es E].
    rewrite main_body_run, run_checks_run, check_env_file_run, E.
    repeat split.
  - intros Hn Hb. destruct (Henv Hn) as [b1 H1].
    assert (result_of (check_data_folder w) = Raise PermissionError) as H4
      by (apply check_data_folder_raises; auto).
    destruct (run_checks_from_data w b1 H1) as [Hw He].
    split; [|split].
    + destruct (main_body_outcome w) as (b2 & b3 & _ & _ & ->).
      now rewrite H1, H4.
    + rewrite main_body_world, Hw, check_data_folder_run.
      destruct Hb as [-> ->]. reflexivity.
    + destruct (main_body_events w) as (tail & -> & Ht).
      destruct (checks_before_imports w) as (F1 & F2 & F3 & F4).
      rewrite (He _ H4). apply attempted_nil.
      rewrite !Forall_app. repeat split; try assumption.
      repeat constructor.
  - intros Hn Hb. destruct (Henv Hn) as [b1 H1].
    destruct (run_checks_from_data w b1 H1) as [Hw _].
    rewrite main_body_world, Hw, check_data_folder_run.
    unfold data_blocked in Hb.
    destruct (cwd w !! "data") as [n|] eqn:E.
    + unfold has_data, world_of. cbn [fst snd]. rewrite E. eauto.
    + destruct (writable w).
      * apply has_data_created.
      * destruct Hb. now split.
Qed.

Lemma break_off_points_witness :
  (world_of (Faults.main nothing_refused env_is_directory) = env_is_directory /\
   created (events_of (Faults.main nothing_refused env_is_directory)) = [] /\
   attempted (events_of (Faults.main nothing_refused env_is_directory)) = []) /\
  (result_of (Faults.main nothing_refused read_only_world)
   = Raise PermissionError /\
   world_of (Faults.main nothing_refused read_only_world) = read_only_world /\
   attempted (events_of (Faults.main nothing_refused read_only_world)) = []) /\
  has_data (world_of (Faults.main nothing_refused discord_broken)).
Proof.
  split; [|split].
  - apply (proj1 (break_off_points nothing_refused env_is_directory
                    (fun _ => eq_refl))).
    exists ∅. vm_compute; reflexivity.
  - apply (proj1 (proj2 (break_off_points nothing_refused read_only_world
                           (fun _ => eq_refl)))).
    + intros [es H]. vm_compute in H. discriminate H.
    + split; vm_compute; reflexivity.
  - apply (proj2 (proj2 (break_off_points nothing_refused discord_broken
                           (fun _ => eq_refl)))).
    + intros [es H]. vm_compute in H. discriminate H.
    + intros [_ H]. vm_compute in H. discriminate H.
Defined.
